(** * Powerhose: the client call fabric, the client pool and the job runner

    A shallow embedding of [powerhose/client.py] and [powerhose/jobrunner.py].

    - Python exceptions are an explicit [outcome]: [Return v] or [Raise e].
      [KeyboardInterrupt] and [SystemExit] are exceptions that an
      [except Exception] clause does not catch.
    - Mutable objects ([Client], [Pool], the worker registry) are threaded
      as explicit state: every method returns the object it leaves behind.
    - The transport (ZeroMQ sockets, pollers), the constructors' calls
      into ZeroMQ and the wall clock are an environment record handed to
      every call: it says what [send], [poll] and [recv] did and what
      [time.time()] read.
    - Times are Python floats, that is IEEE 754 binary64 numbers: they
      are primitive floats here, with the same products, differences
      and comparisons, rounding and NaN included. A decimal literal
      stands for the nearest binary64 number, as in Python. *)

From Stdlib Require Import Floats.
From stdpp Require Import gmap strings list fin_maps relations.

Set Warnings "-inexact-float".

Open Scope string_scope.

(** ** Exceptions and outcomes *)

(** The exception classes the three modules raise or let through.
    [TimeoutError] and [ExecutionError] are declared in [jobrunner.py]
    (and imported from [powerhose.exc] by [client.py]); the others are
    Python's or ZeroMQ's own. *)
Inductive exc : Type :=
  | TimeoutError
  | ExecutionError (msg : string)
  | NotImplementedError (msg : string)
  | ZMQError (msg : string)
  | IndexError (msg : string)
  | ValueError (msg : string)
  | QueueEmpty
  | NoWorker
  | BadFrame
  | KeyboardInterrupt
  | SystemExit.

Global Instance exc_eq_dec : EqDecision exc.
Proof. solve_decision. Defined.

(** Whether the class derives from [Exception], so that
    [except Exception] catches it. *)
Definition is_Exception (e : exc) : bool :=
  match e with
  | KeyboardInterrupt | SystemExit => false
  | _ => true
  end.

(** [str(e)]: the message an exception was built with. *)
Definition str (e : exc) : string :=
  match e with
  | ExecutionError m | NotImplementedError m | ZMQError m
  | IndexError m | ValueError m => m
  | TimeoutError | QueueEmpty | NoWorker | BadFrame
  | KeyboardInterrupt | SystemExit => ""
  end.

Inductive outcome (A : Type) : Type :=
  | Return (a : A)
  | Raise (e : exc).
Arguments Return {A} a.
Arguments Raise {A} e.

Global Instance outcome_ret : MRet outcome := fun A a => Return a.

Global Instance outcome_bind : MBind outcome := fun A B k m =>
  match m with
  | Return a => k a
  | Raise e => Raise e
  end.

Definition raised {A} (m : outcome A) : bool :=
  match m with Return _ => false | Raise _ => true end.

(** A method argument that defaults to [None]. *)
Definition or_default {A} (v : option A) (d : A) : A :=
  match v with Some a => a | None => d end.

(** Modelled from the spec: [powerhose.job.Job], imported by
    [client.py] and not among the sources, is a target name with an
    ordered list of byte-string arguments. *)
Record Job : Type := mk_job {
  target_name : string;
  args : list string
}.

(** ** client.py: [Client] *)

Module Client.

(** The fields of a [Client] that outlive [__init__] and carry data.
    The ZeroMQ context, socket, poller and the lock are the transport,
    seen through [env] below. [timeout] and [timeout_max_overflow]
    are in milliseconds once stored. *)
Record t : Type := mk {
  frontend : string;
  timeout : float;
  timeout_max_overflow : float;
  timeout_overflows : Z;
  timeout_counters : gmap string Z
}.

Definition DEFAULT_FRONTEND : string := "ipc:///tmp/master-routing.ipc".

(** The fields [Client.__init__(frontend, timeout, timeout_max_overflow,
    timeout_overflows)] sets when its calls into ZeroMQ return; the
    counters start as an empty [defaultdict(int)]. Where the
    constructor can raise instead, in [Pool], the outcome of those
    calls is an argument of the caller. *)
Definition __init__ (frontend : string) (timeout timeout_max_overflow : float)
    (timeout_overflows : Z) : t :=
  {| frontend := frontend;
     timeout := timeout * 1000;
     timeout_max_overflow := timeout_max_overflow * 1000;
     timeout_overflows := timeout_overflows;
     timeout_counters := ∅ |}.

(** [Client()] with every keyword left at its default. *)
Definition default : t := __init__ DEFAULT_FRONTEND 1 1.5 1.

(** Reading [self.timeout_counters[k]] on a [defaultdict(int)]. *)
Definition counter (self : t) (k : string) : Z :=
  or_default (timeout_counters self !! k) 0%Z.

Definition set_counter (self : t) (k : string) (n : Z) : t :=
  {| frontend := frontend self;
     timeout := timeout self;
     timeout_max_overflow := timeout_max_overflow self;
     timeout_overflows := timeout_overflows self;
     timeout_counters := <[k := n]> (timeout_counters self) |}.

(** What the world does during one call.
    - [send]: [send(self.master, job.serialize())] returns or raises;
    - [poll ms]: [self.poller.poll(ms)] raises, or says whether
      [POLLIN] is reported on the socket within [ms] milliseconds;
    - [recv]: what [recv(self.master)] returns;
    - [clock_start], [clock_done]: the two readings of [time.time()],
      in seconds. *)
Record env : Type := mk_env {
  send : outcome unit;
  poll : float -> outcome bool;
  recv : outcome string;
  clock_start : float;
  clock_done : float
}.

(** The job argument: a [Job] instance or a string from which one is
    made. Its serialized form only travels through [send]. *)
Inductive job : Type :=
  | JobStr (s : string)
  | JobObj (j : Job).

(** [(time.time() - start) * 1000]: the measured duration of a call,
    in milliseconds, as the code computes it. *)
Definition duration (w : env) : float := (clock_done w - clock_start w) * 1000.

(** [duration > self.timeout]: the elapsed time strictly exceeds the
    soft timeout. *)
Definition over_soft (self : t) (w : env) : bool :=
  (timeout self <? duration w)%float.

(** The reply of worker [wid] is within the overflow budget: not over
    the soft timeout, or over it with the incremented counter still
    not above [timeout_overflows]. *)
Definition within_budget (self : t) (w : env) (wid : string) : Prop :=
  over_soft self w = false \/
  (counter self wid + 1 <= timeout_overflows self)%Z.

Section WithCodec.

(** [powerhose.util.extract_result] is imported and not among the
    sources: it splits a reply into [(worker_pid, res, data)] or
    raises. *)
Variable extract_result : string -> outcome (string * bool * string).

(** [Client._execute] *)
Definition _execute (self : t) (j : job) (timeout : option float) (w : env)
    : outcome string :=
  let timeout := or_default timeout (timeout_max_overflow self) in
  _ ← send w;
  ready ← poll w timeout;
  if ready : bool then recv w else Raise TimeoutError.

(** [Client.execute]. The [except Exception] clause logs and
    re-raises, so a failure leaves as it came. *)
Definition execute (self : t) (j : job) (timeout : option float) (w : env)
    : t * outcome string :=
  let timeout := or_default timeout (timeout_max_overflow self) in
  match reply ← _execute self j (Some timeout) w; extract_result reply with
  | Raise e => (self, Raise e)
  | Return (worker_pid, res, data) =>
      let finish (self' : t) : t * outcome string :=
        if negb res then (self', Raise (ExecutionError data))
        else (self', Return data) in
      if over_soft self w then
        let self1 := set_counter self worker_pid (counter self worker_pid + 1) in
        if (timeout_overflows self1 <? counter self1 worker_pid)%Z
        then (self1, Raise TimeoutError)
        else finish self1
      else
        finish (set_counter self worker_pid 0)
  end.

(** A call "receives a reply" from worker [wid]. *)
Definition replied (self : t) (timeout : option float) (w : env)
    (wid : string) (ok : bool) (data : string) : Prop :=
  exists reply,
    send w = Return tt /\
    poll w (or_default timeout (timeout_max_overflow self)) = Return true /\
    recv w = Return reply /\
    extract_result reply = Return (wid, ok, data).

(** No reply before the poll deadline. *)
Definition poll_expired (self : t) (timeout : option float) (w : env) : Prop :=
  send w = Return tt /\
  poll w (or_default timeout (timeout_max_overflow self)) = Return false.

End WithCodec.

End Client.

(** ** Python's [Queue.Queue], as [Pool] uses it *)

Module Queue.

Inductive got (A : Type) : Type :=
  | Item (a : A) (rest : list A)
  | Fails (e : exc)
  | Blocks.
Arguments Item {A} a rest.
Arguments Fails {A} e.
Arguments Blocks {A}.

(** [Queue.get(timeout=timeout)] with no other thread around to put
    an item. Without a timeout an empty queue blocks for ever. With
    one, [timeout < 0] is refused before the queue is looked at; an
    empty queue raises [Empty] once the timeout has passed, which
    never happens when the timeout is infinite or not a number. *)
Definition get {A} (q : list A) (timeout : option float) : got A :=
  match timeout with
  | None =>
      match q with
      | [] => Blocks
      | a :: rest => Item a rest
      end
  | Some s =>
      if (s <? 0)%float
      then Fails (ValueError "'timeout' must be a non-negative number")
      else match q with
           | [] => if is_finite s then Fails QueueEmpty else Blocks
           | a :: rest => Item a rest
           end
  end.

Definition put {A} (q : list A) (a : A) : list A := (q ++ [a])%list.

End Queue.

(** ** client.py: [Pool] *)

Module Pool.

Record t : Type := mk {
  _connectors : list Client.t;
  frontend : string;
  timeout : float;
  timeout_overflows : Z;
  timeout_max_overflow : float
}.

Definition with_connectors (self : t) (q : list Client.t) : t :=
  {| _connectors := q;
     frontend := frontend self;
     timeout := timeout self;
     timeout_overflows := timeout_overflows self;
     timeout_max_overflow := timeout_max_overflow self |}.

(** [Pool._create_client]: [Client(self.frontend, self.timeout,
    self.timeout_max_overflow, self.timeout_overflows)]. The
    constructor makes a ZeroMQ context and socket and connects;
    [zmq] says whether that returns or raises. *)
Definition _create_client (self : t) (zmq : outcome unit) : outcome Client.t :=
  _ ← zmq;
  mret (Client.__init__ (frontend self) (timeout self)
          (timeout_max_overflow self) (timeout_overflows self)).

(** [self._connectors.put(c)] *)
Definition put (self : t) (c : Client.t) : t :=
  with_connectors self (Queue.put (_connectors self) c).

(** [for i in range(size): self._connectors.put(self._create_client())],
    with [n] rounds left and [i] the round that comes next; [zmq i]
    is what the constructor of round [i] meets. A constructor that
    raises ends [__init__] with its exception. *)
Fixpoint fill (n i : nat) (zmq : nat -> outcome unit) (self : t) : outcome t :=
  match n with
  | O => Return self
  | S k =>
      c ← _create_client self (zmq i);
      fill k (S i) zmq (put self c)
  end.

(** [Pool.__init__]; [range(size)] is empty for [size <= 0]. *)
Definition __init__ (size : Z) (frontend : string)
    (timeout timeout_max_overflow : float) (timeout_overflows : Z)
    (zmq : nat -> outcome unit) : outcome t :=
  fill (Z.to_nat size) 0 zmq
    {| _connectors := [];
       frontend := frontend;
       timeout := timeout;
       timeout_overflows := timeout_overflows;
       timeout_max_overflow := timeout_max_overflow |}.

(** [Pool()] with every keyword left at its default. *)
Definition default (zmq : nat -> outcome unit) : outcome t :=
  __init__ 10 Client.DEFAULT_FRONTEND 4 5 1 zmq.

(** What the world does during one call of [Pool.execute]: the world
    of the client's call, and what the constructor of a replacement
    client meets, should the handler build one. *)
Record env : Type := mk_env {
  call : Client.env;
  rebuild : outcome unit
}.

Section WithCodec.

Variable extract_result : string -> outcome (string * bool * string).

(** The [try ... except Exception ... else] of [Pool.execute], once
    [connector] has left the queue. On success the connector goes
    back. An exception that [except Exception] catches has a new
    client built and put, and is raised again; when the constructor
    raises, its exception leaves instead and nothing is put. An
    exception that is no [Exception] passes the handler by. *)
Definition settle (self : t) (connector : Client.t) (j : Client.job)
    (timeout : option float) (w : env) : t * outcome string :=
  match Client.execute extract_result connector j timeout (call w) with
  | (connector', Return res) => (put self connector', Return res)
  | (_, Raise e) =>
      if is_Exception e then
        match _create_client self (rebuild w) with
        | Return c => (put self c, Raise e)
        | Raise e' => (self, Raise e')
        end
      else (self, Raise e)
  end.

(** [Pool.execute] run with no other caller in flight; [None] when
    [Queue.get] never returns. *)
Definition execute (self : t) (j : Client.job) (timeout : option float)
    (w : env) : option (t * outcome string) :=
  match Queue.get (_connectors self) timeout with
  | Queue.Blocks => None
  | Queue.Fails e => Some (self, Raise e)
  | Queue.Item connector rest =>
      Some (settle (with_connectors self rest) connector j timeout w)
  end.

(** One call after the other. *)
Fixpoint execute_all (self : t)
    (calls : list (Client.job * option float * env)) : option t :=
  match calls with
  | [] => Some self
  | (j, timeout, w) :: calls' =>
      match execute self j timeout w with
      | None => None
      | Some (self', _) => execute_all self' calls'
      end
  end.

(** The call of [connector] returns, or raises an [Exception] with
    the replacement client built without error. *)
Definition orderly (connector : Client.t) (j : Client.job)
    (timeout : option float) (w : env) : Prop :=
  match (Client.execute extract_result connector j timeout (call w)).2 with
  | Return _ => True
  | Raise e => is_Exception e = true /\ rebuild w = Return tt
  end.

(** Several callers at once. A configuration is the pool together
    with the connectors that calls in flight have taken out of the
    queue and not yet settled. A step is one caller passing
    [self._connectors.get], or one caller running the rest of
    [Pool.execute] in an orderly way; a [get] that raises changes
    nothing. *)
Inductive step : t * list Client.t -> t * list Client.t -> Prop :=
  | step_get self held timeout connector rest :
      Queue.get (_connectors self) timeout = Queue.Item connector rest ->
      step (self, held) (with_connectors self rest, connector :: held)
  | step_settle self held1 connector held2 j timeout w self' r :
      settle self connector j timeout w = (self', r) ->
      orderly connector j timeout w ->
      step (self, (held1 ++ connector :: held2)%list) (self', (held1 ++ held2)%list).

(** Fabrics in the queue plus fabrics held by callers. *)
Definition fabrics (c : t * list Client.t) : nat :=
  length (_connectors c.1) + length c.2.

End WithCodec.

End Pool.

(** ** powerhose.workermgr: the worker registry *)

Module Workers.

(** Modelled from the spec: the state of a worker record of
    [powerhose.workermgr.Workers]. A listed worker is idle or held by a
    dispatch; a dead worker is not listed. The registry maps
    identities to states. *)
Inductive state : Type := IDLE | BUSY.

Global Instance state_eq_dec : EqDecision state.
Proof. solve_decision. Defined.

(** Modelled from the spec: [Workers.add], of the missing
    [powerhose.workermgr], inserts a worker as IDLE and does not
    duplicate a record that is already there. *)
Definition add (identity : string) (ws : gmap string state) : gmap string state :=
  match ws !! identity with
  | Some _ => ws
  | None => <[identity := IDLE]> ws
  end.

(** Modelled from the spec: [Workers.delete] removes the worker
    unconditionally. *)
Definition delete (identity : string) (ws : gmap string state) : gmap string state :=
  base.delete identity ws.

(** Modelled from the spec: entering [with self.workers.worker()]
    chooses one IDLE worker and marks it BUSY. Any idle worker will
    do, so the choice is the policy [select]; when it offers none, or
    one that is not idle, nobody else being there to release one, the
    acquisition fails with [NoWorker]. *)
Definition checkout (select : gmap string state -> option string)
    (ws : gmap string state) : outcome (string * gmap string state) :=
  match select ws with
  | Some identity =>
      if decide (ws !! identity = Some IDLE)
      then Return (identity, <[identity := BUSY]> ws)
      else Raise NoWorker
  | None => Raise NoWorker
  end.

(** Modelled from the spec: leaving the [with] block returns the
    worker to IDLE, if it is still listed. *)
Definition release (identity : string) (ws : gmap string state) : gmap string state :=
  match ws !! identity with
  | Some _ => <[identity := IDLE]> ws
  | None => ws
  end.

End Workers.

Module WorkerRegistration.

(** Modelled from the spec: [WorkerRegistration], of the missing
    [powerhose.workermgr], is the registration loop bound to an
    endpoint. The loop runs or not; the two counters record how often
    its [start] and [stop] were invoked, so that a call that reaches
    the loop is never mistaken for one that does not. *)
Record t : Type := mk {
  endpoint : string;
  running : bool;
  starts : nat;
  stops : nat
}.

(** Modelled from the spec: a new loop is bound to its endpoint and
    not running. *)
Definition __init__ (endpoint : string) : t :=
  {| endpoint := endpoint; running := false; starts := 0; stops := 0 |}.

(** Modelled from the spec: [WorkerRegistration.start] sets the loop
    running. *)
Definition start (r : t) : t :=
  {| endpoint := endpoint r; running := true;
     starts := S (starts r); stops := stops r |}.

(** Modelled from the spec: [WorkerRegistration.stop] halts the loop. *)
Definition stop (r : t) : t :=
  {| endpoint := endpoint r; running := false;
     starts := starts r; stops := S (stops r) |}.

End WorkerRegistration.

(** ** jobrunner.py: [JobRunner] *)

Module JobRunner.

Record t : Type := mk {
  started : bool;
  endpoint : string;
  workers : gmap string Workers.state;
  registration : WorkerRegistration.t;
  retries : Z
}.

Definition _ENDPOINT : string := "ipc://master-routing.ipc".

(** [JobRunner.__init__(endpoint, retries)]. The bookkeeping of IPC
    files by [register_ipc_file] leaves no trace in the runner. *)
Definition __init__ (endpoint : string) (retries : Z) : t :=
  {| started := false;
     endpoint := endpoint;
     workers := ∅;
     registration := WorkerRegistration.__init__ endpoint;
     retries := retries |}.

(** [JobRunner()] with every keyword left at its default. *)
Definition default : t := __init__ _ENDPOINT 3.

(** [JobRunner.start] *)
Definition start (self : t) : t :=
  if started self then self
  else {| started := true;
          endpoint := endpoint self;
          workers := workers self;
          registration := WorkerRegistration.start (registration self);
          retries := retries self |}.

(** [JobRunner.stop] *)
Definition stop (self : t) : t :=
  if negb (started self) then self
  else {| started := false;
          endpoint := endpoint self;
          workers := workers self;
          registration := WorkerRegistration.stop (registration self);
          retries := retries self |}.

Definition with_workers (self : t) (ws : gmap string Workers.state) : t :=
  {| started := started self;
     endpoint := endpoint self;
     workers := ws;
     registration := registration self;
     retries := retries self |}.

(** What the world does during one dispatch attempt.
    - [send data]: [worker.send(data, zmq.NOBLOCK)] returns or raises;
    - [poll ms]: [poller.poll(ms)] raises, or says whether the
      worker's socket is among the events;
    - [recv]: [socket.recv()] raises or returns bytes;
    - [tb]: the lines [traceback.format_tb] gives the handler.
    A ZeroMQ failure is [Raise (ZMQError text)]; an interrupt of a
    blocking call is [Raise KeyboardInterrupt]. *)
Record env : Type := mk_env {
  send : string -> outcome unit;
  poll : float -> outcome bool;
  recv : outcome string;
  tb : list string
}.

Definition newline : string := String (Ascii.ascii_of_nat 10) EmptyString.

(** ['\n'.join([str(e)] + traceback.format_tb(...))] *)
Definition diagnostic (e : exc) (w : env) : string :=
  String.concat newline (str e :: tb w).

(** [try: ... except zmq.ZMQError, e: raise ExecutionError(str(e))] *)
Definition zmq_guard {A} (m : outcome A) : outcome A :=
  match m with
  | Raise (ZMQError err) => Raise (ExecutionError err)
  | _ => m
  end.

Section WithTransport.

(** Imported and not among the sources: the registry's choice of an
    idle worker; [serialize("JOB", job.serialize())], of
    [powerhose.util] and [powerhose.job], which yields the bytes to
    send or raises; [powerhose.util.unserialize] (bytes to message
    parts); and Python's [str] of a list of byte strings. *)
Variable select : gmap string Workers.state -> option string.
Variable serialize : Job -> outcome string.
Variable unserialize : string -> list string.
Variable str_list : list string -> string.

(** The body of the [with self.workers.worker() as worker] block. *)
Definition dispatch (data : string) (timeout : float) (w : env) : outcome string :=
  _ ← zmq_guard (send w data);
  ready ← zmq_guard (poll w timeout);
  if ready : bool then
    bytes ← zmq_guard (recv w);
    let msg := unserialize bytes in
    match msg with
    | [] => Raise (IndexError "list index out of range")
    | opcode :: _ =>
        if String.eqb opcode "JOBRES"
        then Return (List.last msg opcode)
        else Raise (NotImplementedError (str_list msg))
    end
  else Raise TimeoutError.

(** The [except Exception, e] clause of [JobRunner._execute], reached
    with the registry [ws] and the checked-out worker, if any: the
    worker is deleted and [ExecutionError] raised with the
    diagnostic. An exception that is no [Exception] passes it by. *)
Definition handler (self : t) (ws : gmap string Workers.state)
    (worker : option string) (e : exc) (w : env) : t * outcome string :=
  if is_Exception e then
    (with_workers self
       match worker with
       | Some identity => Workers.delete identity ws
       | None => ws
       end,
     Raise (ExecutionError (diagnostic e w)))
  else (with_workers self ws, Raise e).

(** [JobRunner._execute] (its decorator [timed] only logs how long
    the call took). The job is serialized before the [try]: an
    exception raised there leaves as it is, with the registry not yet
    asked. Inside the [try], the [with] block gives the worker back
    however it is left, and the handler above takes what was
    raised. *)
Definition _execute (self : t) (j : Job) (timeout : float) (w : env)
    : t * outcome string :=
  let timeout := (timeout * 1000)%float in
  match serialize j with
  | Raise e => (self, Raise e)
  | Return data =>
      match Workers.checkout select (workers self) with
      | Raise e => handler self (workers self) None e w
      | Return (worker, ws) =>
          let r := dispatch data timeout w in
          let ws := Workers.release worker ws in
          match r with
          | Return payload => (with_workers self ws, Return payload)
          | Raise e => handler self ws (Some worker) e w
          end
      end
  end.

(** The classes named by [except (TimeoutError, ExecutionError), e]. *)
Definition retryable (e : exc) : bool :=
  match e with
  | TimeoutError | ExecutionError _ => true
  | _ => false
  end.

(** The [for i in range(self.retries)] loop of [JobRunner.execute]
    with [n] rounds left, [i] the round that comes next, [e] the
    exception bound by the last handler that ran, and the code
    after the loop. The world of round [i] is [world i]. The result
    is the runner left behind, the value returned ([Return None]
    when the method falls off its end) or the exception raised,
    and the number of calls of [_execute] made. *)
Fixpoint execute_loop (n i : nat) (self : t) (j : Job) (timeout : float)
    (world : nat -> env) (e : option exc) : t * outcome (option string) * nat :=
  match n with
  | O =>
      match e with
      | Some e => (self, Raise e, i)
      | None => (self, Return None, i)
      end
  | S n' =>
      match _execute self j timeout (world i) with
      | (self', Return payload) => (self', Return (Some payload), S i)
      | (self', Raise e') =>
          if retryable e' then execute_loop n' (S i) self' j timeout world (Some e')
          else (self', Raise e', S i)
      end
  end.

(** [JobRunner.execute] *)
Definition execute (self : t) (j : Job) (timeout : float) (world : nat -> env)
    : t * outcome (option string) * nat :=
  execute_loop (Z.to_nat (retries self)) 0 self j timeout world None.

(** The runner as it stands when round [i] of [execute] begins,
    every earlier round having been run. *)
Fixpoint before_round (i : nat) (self : t) (j : Job) (timeout : float)
    (world : nat -> env) : t :=
  match i with
  | O => self
  | S i' =>
      (_execute (before_round i' self j timeout world) j timeout (world i')).1
  end.

(** What round [i] does, when it is reached. *)
Definition round (i : nat) (self : t) (j : Job) (timeout : float)
    (world : nat -> env) : outcome string :=
  (_execute (before_round i self j timeout world) j timeout (world i)).2.

(** Round [k] of [execute] is reached: it is one of the [retries]
    rounds, and every round before it raised an exception that the
    handler of [execute] catches. *)
Definition reaches (k : nat) (self : t) (j : Job) (timeout : float)
    (world : nat -> env) : Prop :=
  k < Z.to_nat (retries self) /\
  forall i, i < k ->
    exists e, round i self j timeout world = Raise e /\ retryable e = true.

(** During this attempt the job is serialized, the registry hands out
    [worker], the job is sent, and before the deadline a reply
    arrives that unserializes to the parts [msg]. *)
Definition answers (self : t) (j : Job) (timeout : float) (w : env)
    (worker : string) (msg : list string) : Prop :=
  exists data ws bytes,
    serialize j = Return data /\
    Workers.checkout select (workers self) = Return (worker, ws) /\
    send w data = Return tt /\
    poll w (timeout * 1000)%float = Return true /\
    recv w = Return bytes /\
    unserialize bytes = msg.

(** During this attempt the job is serialized, the registry hands out
    [worker], the job is sent, and no reply arrives before the
    deadline. *)
Definition unanswered (self : t) (j : Job) (timeout : float) (w : env)
    (worker : string) : Prop :=
  exists data ws,
    serialize j = Return data /\
    Workers.checkout select (workers self) = Return (worker, ws) /\
    send w data = Return tt /\
    poll w (timeout * 1000)%float = Return false.

End WithTransport.

End JobRunner.

(** ** Concrete codecs, clients and worlds *)

Module Samples.

(** Cut a string at every occurrence of [sep]. *)
Fixpoint split_on (sep : Ascii.ascii) (s : string) : list string :=
  match s with
  | EmptyString => [EmptyString]
  | String c s' =>
      if Ascii.eqb c sep then EmptyString :: split_on sep s'
      else match split_on sep s' with
           | [] => [String c EmptyString]
           | part :: parts => String c part :: parts
           end
  end.

Definition colon : Ascii.ascii := Ascii.ascii_of_nat 58.

(** A reply codec for the client: [pid:OK:data] or [pid:ERR:data]. *)
Definition extract_result (reply : string) : outcome (string * bool * string) :=
  match split_on colon reply with
  | [pid; res; data] => Return (pid, String.eqb res "OK", data)
  | _ => Raise (ValueError "Wrong data")
  end.

Definition square7 : Client.job := Client.JobObj (mk_job "square" ["7"]).

(** A reply [reply] is there when polled; the clock read [start]
    before the call and [done] after it. *)
Definition clocked (reply : string) (start done : float) : Client.env :=
  {| Client.send := Return tt;
     Client.poll := fun _ => Return true;
     Client.recv := Return reply;
     Client.clock_start := start;
     Client.clock_done := done |}.

(** A reply [reply] is there when polled; the call took from
    [0] to [seconds]. *)
Definition answered (reply : string) (seconds : float) : Client.env :=
  clocked reply 0 seconds.

(** Nothing arrives before the poll gives up. *)
Definition silent (seconds : float) : Client.env :=
  {| Client.send := Return tt;
     Client.poll := fun _ => Return false;
     Client.recv := Raise (ZMQError "Operation cannot be accomplished in current state");
     Client.clock_start := 0;
     Client.clock_done := seconds |}.

(** The caller is interrupted while the client polls. *)
Definition interrupted : Client.env :=
  {| Client.send := Return tt;
     Client.poll := fun _ => Raise KeyboardInterrupt;
     Client.recv := Raise (ZMQError "Operation cannot be accomplished in current state");
     Client.clock_start := 0;
     Client.clock_done := 0.5 |}.

(** The default client after worker [w1] answered once in 1.2 s:
    its counter for [w1] stands at 1. *)
Definition slowed : Client.t :=
  (Client.execute extract_result Client.default square7 None
     (answered "w1:OK:49" 1.2)).1.

(** Two calls on a client: one answered in 0.2 s, one never answered. *)
Definition two_client_calls : list (Client.job * option float * Client.env) :=
  [(square7, None, answered "w1:OK:49" 0.2); (square7, None, silent 5)].

(** A call on a pool whose replacement client, if one is needed, is
    built without error. *)
Definition served (w : Client.env) : Pool.env :=
  {| Pool.call := w; Pool.rebuild := Return tt |}.

(** A call on a pool whose replacement client cannot connect. *)
Definition unreplaced (w : Client.env) : Pool.env :=
  {| Pool.call := w; Pool.rebuild := Raise (ZMQError "Too many open files") |}.

(** Every constructor returns. *)
Definition built (i : nat) : outcome unit := Return tt.

Definition fresh : Client.t := Client.__init__ Client.DEFAULT_FRONTEND 4 5 1.

(** The pool [Pool(size=2)] builds. *)
Definition pool2 : Pool.t :=
  {| Pool._connectors := [fresh; fresh];
     Pool.frontend := Client.DEFAULT_FRONTEND;
     Pool.timeout := 4;
     Pool.timeout_overflows := 1;
     Pool.timeout_max_overflow := 5 |}.

(** Two calls on a pool: one answered in 0.2 s, one never answered. *)
Definition two_calls : list (Client.job * option float * Pool.env) :=
  [(square7, None, served (answered "w1:OK:49" 0.2));
   (square7, None, served (silent 5))].

(** A selection policy: the first idle worker of the registry. *)
Definition select (ws : gmap string Workers.state) : option string :=
  fst <$> head (filter (fun kv => kv.2 = Workers.IDLE) (map_to_list ws)).

(** Message parts are separated by colons. *)
Definition unserialize (bytes : string) : list string := split_on colon bytes.

(** A job is sent as [JOB:target:arg:...]; a job without a target
    cannot be serialized. *)
Definition serialize (j : Job) : outcome string :=
  if String.eqb (target_name j) ""
  then Raise (ValueError "no target")
  else Return (String.concat ":" ("JOB" :: target_name j :: args j)).

Definition str_list (msg : list string) : string :=
  "[" ++ String.concat ", " (map (fun part => "'" ++ part ++ "'") msg) ++ "]".

(** The default runner with three idle workers registered. *)
Definition runner3 : JobRunner.t :=
  JobRunner.with_workers JobRunner.default
    (Workers.add "w3" (Workers.add "w2" (Workers.add "w1" ∅))).

Definition square : Job := mk_job "square" ["7"].

Definition nameless : Job := mk_job "" [].

(** The worker answers with [bytes] before the deadline. *)
Definition says (bytes : string) : JobRunner.env :=
  {| JobRunner.send := fun _ => Return tt;
     JobRunner.poll := fun _ => Return true;
     JobRunner.recv := Return bytes;
     JobRunner.tb := ["  File jobrunner.py, in _execute"] |}.

(** The worker stays silent until the deadline. *)
Definition mute : JobRunner.env :=
  {| JobRunner.send := fun _ => Return tt;
     JobRunner.poll := fun _ => Return false;
     JobRunner.recv := Raise (ZMQError "Resource temporarily unavailable");
     JobRunner.tb := ["  File jobrunner.py, in _execute"] |}.

(** The socket refuses the job. *)
Definition unsendable : JobRunner.env :=
  {| JobRunner.send := fun _ => Raise (ZMQError "Resource temporarily unavailable");
     JobRunner.poll := fun _ => Return false;
     JobRunner.recv := Raise (ZMQError "Resource temporarily unavailable");
     JobRunner.tb := ["  File jobrunner.py, in _execute"] |}.

(** Every round is answered with the one-part message PONG. *)
Definition pong (i : nat) : JobRunner.env := says "PONG".

(** No round is ever answered. *)
Definition silence (i : nat) : JobRunner.env := mute.

(** The first round is never answered, the later ones are. *)
Definition healed (i : nat) : JobRunner.env :=
  if Nat.eqb i 0 then mute else says "JOBRES:w2:1:49".

(** Round 0 times out, every later round is answered PONG. *)
Definition late_pong (i : nat) : JobRunner.env :=
  if Nat.eqb i 0 then mute else says "PONG".

End Samples.

(** ** Sequences of calls *)

Module Runs.

(** Two clients with the same settings. *)
Definition same_settings (a b : Client.t) : Prop :=
  Client.frontend a = Client.frontend b /\
  Client.timeout a = Client.timeout b /\
  Client.timeout_max_overflow a = Client.timeout_max_overflow b /\
  Client.timeout_overflows a = Client.timeout_overflows b.

Section WithCodec.

Variable extract_result : string -> outcome (string * bool * string).

(** [Client.execute] called again and again on one client: the client
    left at the end and the outcome of each call, in order. *)
Fixpoint client_calls (self : Client.t)
    (calls : list (Client.job * option float * Client.env))
    : Client.t * list (outcome string) :=
  match calls with
  | [] => (self, [])
  | (j, timeout, w) :: calls' =>
      let r := Client.execute extract_result self j timeout w in
      let rs := client_calls r.1 calls' in
      (rs.1, r.2 :: rs.2)
  end.

(** The call [c] is answered by worker [wid], and the measured
    duration is over the soft timeout of [self]. *)
Definition late_reply (self : Client.t) (wid : string)
    (c : Client.job * option float * Client.env) : Prop :=
  (exists ok data, Client.replied extract_result self c.1.2 c.2 wid ok data) /\
  Client.over_soft self c.2 = true.

End WithCodec.

(** The broker's calls of [JobRunner.start] and [JobRunner.stop]. *)
Inductive lifecycle : Type := Start | Stop.

Definition lifecycle_step (self : JobRunner.t) (op : lifecycle) : JobRunner.t :=
  match op with
  | Start => JobRunner.start self
  | Stop => JobRunner.stop self
  end.

Definition lifecycle_run (self : JobRunner.t) (ops : list lifecycle) : JobRunner.t :=
  fold_left lifecycle_step ops self.

(** The flag of the runner agrees with the loop, and the loop was
    started once more than stopped exactly when it runs. *)
Definition in_step (self : JobRunner.t) : Prop :=
  WorkerRegistration.running (JobRunner.registration self) = JobRunner.started self /\
  WorkerRegistration.starts (JobRunner.registration self)
  = WorkerRegistration.stops (JobRunner.registration self)
    + (if JobRunner.started self then 1 else 0).

(** No worker of the registry is held by a dispatch. *)
Definition all_idle (ws : gmap string Workers.state) : Prop :=
  forall k s, ws !! k = Some s -> s = Workers.IDLE.

End Runs.

(** * Properties of [Client] *)

Section ClientFacts.

Variable extract_result : string -> outcome (string * bool * string).

Local Abbreviation execute := (Client.execute extract_result).
Local Abbreviation replied := (Client.replied extract_result).

Lemma counter_set_counter self k n :
  Client.counter (Client.set_counter self k n) k = n.
Proof.
  unfold Client.counter, Client.set_counter; simpl.
  by rewrite lookup_insert_eq.
Qed.

Lemma counter_set_counter_ne self k k' n :
  k <> k' ->
  Client.counter (Client.set_counter self k n) k' = Client.counter self k'.
Proof.
  intros Hne. unfold Client.counter, Client.set_counter; simpl.
  by rewrite lookup_insert_ne.
Qed.

(** What [execute] does with a reply, by cases on the clock and on
    the counter. *)
Lemma execute_late_over self j timeout w wid ok data :
  replied self timeout w wid ok data ->
  Client.over_soft self w = true ->
  (Client.timeout_overflows self < Client.counter self wid + 1)%Z ->
  execute self j timeout w =
    (Client.set_counter self wid (Client.counter self wid + 1), Raise TimeoutError).
Proof.
  intros (reply & Hs & Hp & Hr & Hx) Hlate Hover.
  unfold Client.execute, Client._execute; simpl.
  rewrite Hs; simpl. rewrite Hp; simpl. rewrite Hr; simpl. rewrite Hx, Hlate.
  rewrite counter_set_counter.
  by apply Z.ltb_lt in Hover as ->.
Qed.

Lemma execute_late_within self j timeout w wid ok data :
  replied self timeout w wid ok data ->
  Client.over_soft self w = true ->
  (Client.counter self wid + 1 <= Client.timeout_overflows self)%Z ->
  execute self j timeout w =
    (Client.set_counter self wid (Client.counter self wid + 1),
     if ok then Return data else Raise (ExecutionError data)).
Proof.
  intros (reply & Hs & Hp & Hr & Hx) Hlate Hin.
  unfold Client.execute, Client._execute; simpl.
  rewrite Hs; simpl. rewrite Hp; simpl. rewrite Hr; simpl. rewrite Hx, Hlate.
  rewrite counter_set_counter.
  apply Z.ltb_ge in Hin as ->. by destruct ok.
Qed.

Lemma execute_on_time self j timeout w wid ok data :
  replied self timeout w wid ok data ->
  Client.over_soft self w = false ->
  execute self j timeout w =
    (Client.set_counter self wid 0,
     if ok then Return data else Raise (ExecutionError data)).
Proof.
  intros (reply & Hs & Hp & Hr & Hx) Hle.
  unfold Client.execute, Client._execute; simpl.
  rewrite Hs; simpl. rewrite Hp; simpl. rewrite Hr; simpl. rewrite Hx, Hle.
  by destruct ok.
Qed.

Lemma execute_poll_expired self j timeout w :
  Client.poll_expired self timeout w ->
  execute self j timeout w = (self, Raise TimeoutError).
Proof.
  intros [Hs Hp].
  unfold Client.execute, Client._execute; simpl.
  rewrite Hs; simpl. by rewrite Hp.
Qed.

End ClientFacts.

Section ClientClaims.

Variable extract_result : string -> outcome (string * bool * string).

Local Abbreviation execute := (Client.execute extract_result).
Local Abbreviation replied := (Client.replied extract_result).

(** C1: when [Client.execute] receives a reply from worker [wid]: if the
    duration the code measures is strictly above the soft timeout
    ([duration > self.timeout] holds), the counter of [wid] is one
    more than before, and if that new value is above
    [timeout_overflows] the call raises [TimeoutError], whatever the
    reply held; if the duration is not above the soft timeout, the
    counter of [wid] is 0 afterwards. *)
Theorem C1_overflow_counter self j timeout w wid ok data :
  replied self timeout w wid ok data ->
  (Client.over_soft self w = true ->
     Client.counter (execute self j timeout w).1 wid
       = (Client.counter self wid + 1)%Z /\
     ((Client.timeout_overflows self < Client.counter self wid + 1)%Z ->
        (execute self j timeout w).2 = Raise TimeoutError)) /\
  (Client.over_soft self w = false ->
     Client.counter (execute self j timeout w).1 wid = 0%Z).
Proof.
  intros Hrep. split.
  - intros Hlate.
    destruct (Z_lt_le_dec (Client.timeout_overflows self)
                (Client.counter self wid + 1)) as [Hover | Hin].
    + rewrite (execute_late_over _ _ _ _ _ _ _ _ Hrep Hlate Hover); simpl.
      by rewrite counter_set_counter.
    + rewrite (execute_late_within _ _ _ _ _ _ _ _ Hrep Hlate Hin); simpl.
      rewrite counter_set_counter. split; [done | lia].
  - intros Hle.
    rewrite (execute_on_time _ _ _ _ _ _ _ _ Hrep Hle); simpl.
    apply counter_set_counter.
Qed.

(** C6, as amended: if the poll expires without a reply,
    [Client.execute] raises [TimeoutError]; if a reply arrives within
    the overflow budget, a false ok flag raises [ExecutionError] with
    the payload and a true one returns the payload. *)
Theorem C6_reply_within_budget self j timeout w :
  (Client.poll_expired self timeout w ->
     (execute self j timeout w).2 = Raise TimeoutError) /\
  (forall wid data,
     replied self timeout w wid false data ->
     Client.within_budget self w wid ->
     (execute self j timeout w).2 = Raise (ExecutionError data)) /\
  (forall wid data,
     replied self timeout w wid true data ->
     Client.within_budget self w wid ->
     (execute self j timeout w).2 = Return data).
Proof.
  assert (Hcases : forall wid ok data,
    replied self timeout w wid ok data ->
    Client.within_budget self w wid ->
    (execute self j timeout w).2
      = if ok then Return data else Raise (ExecutionError data)).
  { intros wid ok data Hrep [Hle | Hin].
    - by rewrite (execute_on_time _ _ _ _ _ _ _ _ Hrep Hle).
    - destruct (Client.over_soft self w) eqn:Hlate.
      + by rewrite (execute_late_within _ _ _ _ _ _ _ _ Hrep Hlate Hin).
      + by rewrite (execute_on_time _ _ _ _ _ _ _ _ Hrep Hlate). }
  split; [| split].
  - intros Hexp. by rewrite (execute_poll_expired _ _ _ _ _ Hexp).
  - intros wid data Hrep Hin. apply (Hcases wid false data Hrep Hin).
  - intros wid data Hrep Hin. apply (Hcases wid true data Hrep Hin).
Qed.

(** C10: for a reply with a false ok flag whose measured duration is
    over the soft timeout and which takes the counter above
    [timeout_overflows], [Client.execute] raises [TimeoutError], not
    [ExecutionError]. *)
Theorem C10_budget_check_first self j timeout w wid data :
  replied self timeout w wid false data ->
  Client.over_soft self w = true ->
  (Client.timeout_overflows self < Client.counter self wid + 1)%Z ->
  (execute self j timeout w).2 = Raise TimeoutError /\
  (execute self j timeout w).2 <> Raise (ExecutionError data).
Proof.
  intros Hrep Hlate Hover.
  rewrite (execute_late_over _ _ _ _ _ _ _ _ Hrep Hlate Hover); simpl.
  split; [done | discriminate].
Qed.

End ClientClaims.

(** The default client, a first reply from [w1] after 1.2 s: the
    counter of [w1] goes from 0 to 1. *)
Lemma C1_overflow_counter_witness :
  Client.replied Samples.extract_result Client.default None
    (Samples.answered "w1:OK:49" 1.2) "w1" true "49" /\
  Client.counter
    (Client.execute Samples.extract_result Client.default Samples.square7 None
       (Samples.answered "w1:OK:49" 1.2)).1 "w1"
  = (Client.counter Client.default "w1" + 1)%Z.
Proof.
  assert (Hrep : Client.replied Samples.extract_result Client.default None
                   (Samples.answered "w1:OK:49" 1.2) "w1" true "49").
  { exists "w1:OK:49". repeat split; reflexivity. }
  split; [exact Hrep |].
  refine (proj1 (proj1 (C1_overflow_counter Samples.extract_result
            Client.default Samples.square7 None _ "w1" true "49" Hrep) _)).
  vm_compute. reflexivity.
Defined.

(** The default client, a reply from [w1] after 0.2 s with a true ok
    flag: the payload is returned. *)
Lemma C6_reply_within_budget_witness :
  Client.replied Samples.extract_result Client.default None
    (Samples.answered "w1:OK:49" 0.2) "w1" true "49" /\
  Client.within_budget Client.default (Samples.answered "w1:OK:49" 0.2) "w1" /\
  (Client.execute Samples.extract_result Client.default Samples.square7 None
     (Samples.answered "w1:OK:49" 0.2)).2 = Return "49".
Proof.
  assert (Hrep : Client.replied Samples.extract_result Client.default None
                   (Samples.answered "w1:OK:49" 0.2) "w1" true "49").
  { exists "w1:OK:49". repeat split; reflexivity. }
  assert (Hin : Client.within_budget Client.default
                  (Samples.answered "w1:OK:49" 0.2) "w1").
  { left. vm_compute. reflexivity. }
  split; [exact Hrep | split; [exact Hin |]].
  exact (proj2 (proj2 (C6_reply_within_budget Samples.extract_result
           Client.default Samples.square7 None _)) "w1" "49" Hrep Hin).
Defined.

(** A client whose counter for [w1] stands at 1, and a second late
    reply from [w1], this one with a false ok flag: the call raises
    [TimeoutError]. *)
Lemma C10_budget_check_first_witness :
  Client.replied Samples.extract_result Samples.slowed None
    (Samples.answered "w1:ERR:boom" 1.2) "w1" false "boom" /\
  (Client.execute Samples.extract_result Samples.slowed Samples.square7 None
     (Samples.answered "w1:ERR:boom" 1.2)).2 = Raise TimeoutError.
Proof.
  assert (Hrep : Client.replied Samples.extract_result Samples.slowed None
                   (Samples.answered "w1:ERR:boom" 1.2) "w1" false "boom").
  { exists "w1:ERR:boom". repeat split; reflexivity. }
  split; [exact Hrep |].
  refine (proj1 (C10_budget_check_first Samples.extract_result Samples.slowed
            Samples.square7 None _ "w1" "boom" Hrep _ _)).
  - vm_compute. reflexivity.
  - vm_compute. reflexivity.
Defined.

(** C6 as it was stated fails: with the defaults, after one late reply
    from [w1], a second late reply from [w1] with a false ok flag and
    payload [boom] does not raise [ExecutionError "boom"]; the call
    raises [TimeoutError]. *)
Lemma C6_counterexample :
  Client.replied Samples.extract_result Samples.slowed None
    (Samples.answered "w1:ERR:boom" 1.2) "w1" false "boom" /\
  (Client.execute Samples.extract_result Samples.slowed Samples.square7 None
     (Samples.answered "w1:ERR:boom" 1.2)).2 = Raise TimeoutError /\
  (Client.execute Samples.extract_result Samples.slowed Samples.square7 None
     (Samples.answered "w1:ERR:boom" 1.2)).2 <> Raise (ExecutionError "boom").
Proof.
  split; [| split].
  - exists "w1:ERR:boom". repeat split; reflexivity.
  - vm_compute. reflexivity.
  - vm_compute. discriminate.
Qed.

(** The duration is the one the code computes, rounding included: with
    the clock reading 0.1 before and 1.1 after, the difference times
    1000 is 1000.0 and not above the soft timeout of 1000.0. A client
    whose counter for [w1] stands at the budget then returns the
    payload and resets the counter; and a reply with a false ok flag
    raises [ExecutionError], not [TimeoutError]. *)
Example rounded_duration_is_on_time :
  Client.duration (Samples.clocked "w1:OK:49" 0.1 1.1) = 1000%float /\
  Client.over_soft Samples.slowed (Samples.clocked "w1:OK:49" 0.1 1.1) = false /\
  (Client.execute Samples.extract_result Samples.slowed Samples.square7 None
     (Samples.clocked "w1:OK:49" 0.1 1.1)).2 = Return "49" /\
  Client.counter
    (Client.execute Samples.extract_result Samples.slowed Samples.square7 None
       (Samples.clocked "w1:OK:49" 0.1 1.1)).1 "w1" = 0%Z /\
  (Client.execute Samples.extract_result Samples.slowed Samples.square7 None
     (Samples.clocked "w1:ERR:boom" 0.1 1.1)).2 = Raise (ExecutionError "boom").
Proof. repeat split; vm_compute; reflexivity. Qed.

(** Rounding can also go the other way: with a soft timeout of
    1009.2077668641765 ms and the clock reading 0.34852986049099466
    before and 1.3577376273551711 after, the code computes a duration
    of 1009.2077668641766 ms, which is over the soft timeout. *)
Example rounded_duration_is_late :
  let self := Client.mk Client.DEFAULT_FRONTEND 1009.2077668641765 1500 1 ∅ in
  let w := Samples.clocked "w1:OK:49" 0.34852986049099466 1.3577376273551711 in
  Client.duration w = 1009.2077668641766%float /\
  Client.over_soft self w = true.
Proof. split; vm_compute; reflexivity. Qed.

(** * Properties of [Pool] *)

Section PoolFacts.

Variable extract_result : string -> outcome (string * bool * string).

Local Abbreviation settle := (Pool.settle extract_result).
Local Abbreviation step := (Pool.step extract_result).
Local Abbreviation orderly := (Pool.orderly extract_result).

(** The client [Pool._create_client] builds when the constructor
    returns. *)
Local Abbreviation new_client self :=
  (Client.__init__ (Pool.frontend self) (Pool.timeout self)
     (Pool.timeout_max_overflow self) (Pool.timeout_overflows self)).

Lemma queue_get_item {A} (q : list A) timeout a rest :
  Queue.get q timeout = Queue.Item a rest -> q = a :: rest.
Proof.
  unfold Queue.get. intros H.
  destruct timeout as [s |]; [destruct (s <? 0)%float |];
    destruct q; try congruence.
  by destruct (is_finite s).
Qed.

Lemma put_connectors self c :
  Pool._connectors (Pool.put self c) = (Pool._connectors self ++ [c])%list.
Proof. reflexivity. Qed.

Lemma create_client_inv self zmq c :
  Pool._create_client self zmq = Return c -> c = new_client self.
Proof.
  unfold Pool._create_client.
  destruct zmq as [[] | e]; intros H; [by injection H as <- | discriminate H].
Qed.

Lemma create_client_built self :
  Pool._create_client self (Return tt) = Return (new_client self).
Proof. reflexivity. Qed.

(** A pool that [fill] returns has [n] more clients, all of them new,
    and the settings it started with. *)
Lemma fill_inv n : forall i zmq self pool,
  Pool.fill n i zmq self = Return pool ->
  Pool._connectors pool
    = (Pool._connectors self ++ replicate n (new_client self))%list /\
  Pool.with_connectors pool [] = Pool.with_connectors self [].
Proof.
  induction n as [| n IH]; intros i zmq self pool; simpl.
  - intros [= <-]. by rewrite app_nil_r.
  - destruct (Pool._create_client self (zmq i)) as [c | e] eqn:Hc; simpl; [| done].
    apply create_client_inv in Hc as ->. intros Hfill.
    apply IH in Hfill as [-> Hcfg]. split; [| exact Hcfg].
    rewrite put_connectors, <- app_assoc. done.
Qed.

Lemma fill_built n : forall i zmq self,
  (forall k, i <= k < i + n -> zmq k = Return tt) ->
  exists pool, Pool.fill n i zmq self = Return pool.
Proof.
  induction n as [| n IH]; intros i zmq self Hzmq; simpl; [eauto |].
  rewrite (Hzmq i) by lia. simpl.
  apply IH. intros k Hk. apply Hzmq. lia.
Qed.

Lemma init_connectors size frontend timeout timeout_max_overflow
    timeout_overflows zmq pool :
  Pool.__init__ size frontend timeout timeout_max_overflow timeout_overflows zmq
  = Return pool ->
  Pool._connectors pool
  = replicate (Z.to_nat size)
      (Client.__init__ frontend timeout timeout_max_overflow timeout_overflows).
Proof. unfold Pool.__init__. intros H. by apply fill_inv in H as [-> _]. Qed.

(** An orderly [settle] puts exactly one fabric on the queue: the
    connector on success, a new client on failure. *)
Lemma settle_connectors self connector j timeout w :
  orderly connector j timeout w ->
  length (Pool._connectors (settle self connector j timeout w).1)
  = S (length (Pool._connectors self)).
Proof.
  unfold Pool.orderly, Pool.settle.
  destruct (Client.execute _ _ _ _ _) as [connector' [res | e]]; cbn [fst snd].
  - intros _. rewrite put_connectors, length_app; simpl; lia.
  - intros [-> ->]. rewrite create_client_built; cbn [fst].
    rewrite put_connectors, length_app; simpl; lia.
Qed.

Lemma step_fabrics c c' : step c c' -> Pool.fabrics c' = Pool.fabrics c.
Proof.
  intros Hstep.
  destruct Hstep as [self held timeout connector rest Hget
                    | self held1 connector held2 j timeout w self' r Hs Hord].
  - apply queue_get_item in Hget. unfold Pool.fabrics; simpl.
    rewrite Hget; simpl. lia.
  - unfold Pool.fabrics; simpl.
    pose proof (settle_connectors self connector j timeout w Hord) as Hlen.
    rewrite Hs in Hlen; simpl in Hlen.
    rewrite Hlen, !length_app; simpl. lia.
Qed.

Lemma steps_fabrics c c' : rtc step c c' -> Pool.fabrics c' = Pool.fabrics c.
Proof.
  induction 1 as [| c1 c2 c3 H12 _ IH]; [done |].
  rewrite IH. by apply step_fabrics.
Qed.

(** C7, as amended: a pool that [Pool.__init__] returns holds
    [max 0 size] fabrics, and keeps that number through every step
    of callers taking a fabric and settling their call in an orderly
    way (the call returns, or raises an [Exception] and the
    replacement client is built without error): fabrics on the queue
    plus fabrics held by calls in flight stay [max 0 size]. And when
    the call of the fabric at the head of the queue raises such an
    exception, [Pool.execute] leaves the rest of the queue followed
    by a newly built client, the failed fabric being gone, and raises
    that same exception. *)
Theorem C7_pool_size size frontend timeout timeout_max_overflow timeout_overflows
    zmq pool :
  Pool.__init__ size frontend timeout timeout_max_overflow timeout_overflows zmq
  = Return pool ->
  Z.of_nat (length (Pool._connectors pool)) = Z.max 0 size /\
  (forall c, rtc step (pool, []) c -> Z.of_nat (Pool.fabrics c) = Z.max 0 size) /\
  (forall self connector rest j t w e,
     Queue.get (Pool._connectors self) t = Queue.Item connector rest ->
     (Client.execute extract_result connector j t (Pool.call w)).2 = Raise e ->
     is_Exception e = true ->
     Pool.rebuild w = Return tt ->
     Pool.execute extract_result self j t w
     = Some (Pool.with_connectors self (rest ++ [new_client self])%list, Raise e)).
Proof.
  intros Hinit.
  assert (Hlen : Z.of_nat (length (Pool._connectors pool)) = Z.max 0 size).
  { rewrite (init_connectors _ _ _ _ _ _ _ Hinit), length_replicate. lia. }
  split; [exact Hlen | split].
  - intros c Hc. rewrite (steps_fabrics _ _ Hc).
    unfold Pool.fabrics; simpl. lia.
  - intros self connector rest j t w e Hget Hraise Hexc Hzmq.
    unfold Pool.execute, Pool.settle. rewrite Hget.
    destruct (Client.execute _ _ _ _ _) as [connector' r]; simpl in Hraise.
    subst r. rewrite Hexc, Hzmq. reflexivity.
Qed.

End PoolFacts.

Lemma pool2_built :
  Pool.__init__ 2 Client.DEFAULT_FRONTEND 4 5 1 Samples.built = Return Samples.pool2.
Proof. reflexivity. Qed.

(** C7 as it was stated fails: a pool of two, built without error, and
    a caller interrupted while the client polls. The call completes
    by raising [KeyboardInterrupt], which [except Exception] does not
    catch: one fabric is left. The same when the call times out and
    the replacement client cannot connect: the constructor's error
    leaves and one fabric is left. And a pool built with [size=-1]
    holds no fabric at all. *)
Lemma C7_counterexample :
  Pool.__init__ 2 Client.DEFAULT_FRONTEND 4 5 1 Samples.built = Return Samples.pool2 /\
  Pool.__init__ (-1) Client.DEFAULT_FRONTEND 4 5 1 Samples.built
  = Return (Pool.with_connectors Samples.pool2 []) /\
  Pool.execute Samples.extract_result Samples.pool2 Samples.square7 None
    (Samples.served Samples.interrupted)
  = Some (Pool.with_connectors Samples.pool2 [Samples.fresh], Raise KeyboardInterrupt) /\
  Pool.execute Samples.extract_result Samples.pool2 Samples.square7 None
    (Samples.unreplaced (Samples.silent 5))
  = Some (Pool.with_connectors Samples.pool2 [Samples.fresh],
          Raise (ZMQError "Too many open files")).
Proof. repeat split; vm_compute; reflexivity. Qed.

(** A pool of two and a call that times out: the failed fabric is
    replaced by a new client at the back of the queue and
    [TimeoutError] is raised again. *)
Lemma C7_pool_size_witness :
  Pool.__init__ 2 Client.DEFAULT_FRONTEND 4 5 1 Samples.built = Return Samples.pool2 /\
  Z.of_nat (length (Pool._connectors Samples.pool2)) = Z.max 0 2 /\
  Pool.execute Samples.extract_result Samples.pool2 Samples.square7 None
    (Samples.served (Samples.silent 5))
  = Some (Pool.with_connectors Samples.pool2 [Samples.fresh; Samples.fresh],
          Raise TimeoutError).
Proof.
  pose proof (C7_pool_size Samples.extract_result 2 Client.DEFAULT_FRONTEND
                4 5 1 Samples.built Samples.pool2 pool2_built) as (Hlen & _ & Hrep).
  split; [exact pool2_built | split; [exact Hlen |]].
  refine (Hrep Samples.pool2 Samples.fresh [Samples.fresh] Samples.square7 None
            (Samples.served (Samples.silent 5)) TimeoutError _ _ _ _);
    reflexivity.
Defined.

(** * Properties of [JobRunner] *)

Section JobRunnerFacts.

Variable select : gmap string Workers.state -> option string.
Variable serialize : Job -> outcome string.
Variable unserialize : string -> list string.
Variable str_list : list string -> string.

Local Abbreviation _execute :=
  (JobRunner._execute select serialize unserialize str_list).
Local Abbreviation dispatch := (JobRunner.dispatch unserialize str_list).
Local Abbreviation execute_loop :=
  (JobRunner.execute_loop select serialize unserialize str_list).
Local Abbreviation execute :=
  (JobRunner.execute select serialize unserialize str_list).
Local Abbreviation before_round :=
  (JobRunner.before_round select serialize unserialize str_list).
Local Abbreviation round :=
  (JobRunner.round select serialize unserialize str_list).
Local Abbreviation reaches :=
  (JobRunner.reaches select serialize unserialize str_list).
Local Abbreviation answers := (JobRunner.answers select serialize unserialize).
Local Abbreviation unanswered := (JobRunner.unanswered select serialize).

Lemma checkout_inv ws worker ws' :
  Workers.checkout select ws = Return (worker, ws') ->
  ws !! worker = Some Workers.IDLE /\ ws' = <[worker := Workers.BUSY]> ws.
Proof.
  unfold Workers.checkout. intros H.
  destruct (select ws) as [identity |]; [| done].
  destruct (decide _) as [Hidle |]; by simplify_eq.
Qed.

Lemma checkout_select ws worker ws' :
  Workers.checkout select ws = Return (worker, ws') -> select ws = Some worker.
Proof.
  unfold Workers.checkout. intros H.
  destruct (select ws) as [identity |]; [| done].
  destruct (decide _); by simplify_eq.
Qed.

Lemma checkout_raises ws e :
  Workers.checkout select ws = Raise e -> e = NoWorker.
Proof.
  unfold Workers.checkout. intros H.
  destruct (select ws) as [identity |]; [| by simplify_eq].
  destruct (decide _); by simplify_eq.
Qed.

Lemma release_busy worker ws :
  Workers.release worker (<[worker := Workers.BUSY]> ws)
  = <[worker := Workers.IDLE]> ws.
Proof.
  unfold Workers.release.
  by rewrite lookup_insert_eq, insert_insert_eq.
Qed.

Lemma with_workers_id self :
  JobRunner.with_workers self (JobRunner.workers self) = self.
Proof. by destruct self. Qed.

(** An attempt whose [with] block returns: the worker is idle again. *)
Lemma _execute_returns self j timeout w data worker ws payload :
  serialize j = Return data ->
  Workers.checkout select (JobRunner.workers self) = Return (worker, ws) ->
  dispatch data (timeout * 1000)%float w = Return payload ->
  _execute self j timeout w
  = (JobRunner.with_workers self (<[worker := Workers.IDLE]> (JobRunner.workers self)),
     Return payload).
Proof.
  intros Hser Hco Hd. unfold JobRunner._execute. rewrite Hser, Hco, Hd.
  apply checkout_inv in Hco as [_ ->]. by rewrite release_busy.
Qed.

(** An attempt whose [with] block raises an [Exception]: the worker
    is deleted and the exception leaves as an [ExecutionError]. *)
Lemma _execute_raises self j timeout w data worker ws e :
  serialize j = Return data ->
  Workers.checkout select (JobRunner.workers self) = Return (worker, ws) ->
  dispatch data (timeout * 1000)%float w = Raise e ->
  is_Exception e = true ->
  _execute self j timeout w
  = (JobRunner.with_workers self (delete worker (JobRunner.workers self)),
     Raise (ExecutionError (JobRunner.diagnostic e w))).
Proof.
  intros Hser Hco Hd Hexc.
  unfold JobRunner._execute, JobRunner.handler. rewrite Hser, Hco, Hd, Hexc.
  apply checkout_inv in Hco as [_ ->].
  rewrite release_busy. unfold Workers.delete. by rewrite delete_insert_eq.
Qed.

(** An attempt whose [with] block is left by an exception that is no
    [Exception]: the worker is idle again, nothing is wrapped. *)
Lemma _execute_interrupted self j timeout w data worker ws e :
  serialize j = Return data ->
  Workers.checkout select (JobRunner.workers self) = Return (worker, ws) ->
  dispatch data (timeout * 1000)%float w = Raise e ->
  is_Exception e = false ->
  _execute self j timeout w
  = (JobRunner.with_workers self (<[worker := Workers.IDLE]> (JobRunner.workers self)),
     Raise e).
Proof.
  intros Hser Hco Hd Hexc.
  unfold JobRunner._execute, JobRunner.handler. rewrite Hser, Hco, Hd, Hexc.
  apply checkout_inv in Hco as [_ ->]. by rewrite release_busy.
Qed.

Lemma _execute_no_worker self j timeout w data :
  serialize j = Return data ->
  select (JobRunner.workers self) = None ->
  _execute self j timeout w
  = (self, Raise (ExecutionError (JobRunner.diagnostic NoWorker w))).
Proof.
  intros Hser Hsel.
  unfold JobRunner._execute, JobRunner.handler, Workers.checkout.
  rewrite Hser, Hsel. simpl. by rewrite with_workers_id.
Qed.

Lemma dispatch_answer data timeout w bytes :
  JobRunner.send w data = Return tt ->
  JobRunner.poll w timeout = Return true ->
  JobRunner.recv w = Return bytes ->
  dispatch data timeout w =
    match unserialize bytes with
    | [] => Raise (IndexError "list index out of range")
    | opcode :: rest =>
        if String.eqb opcode "JOBRES"
        then Return (List.last (opcode :: rest) opcode)
        else Raise (NotImplementedError (str_list (opcode :: rest)))
    end.
Proof.
  intros Hs Hp Hr. unfold JobRunner.dispatch. rewrite Hs, Hp, Hr. simpl.
  by destruct (unserialize bytes).
Qed.

Lemma dispatch_silence data timeout w :
  JobRunner.send w data = Return tt ->
  JobRunner.poll w timeout = Return false ->
  dispatch data timeout w = Raise TimeoutError.
Proof. intros Hs Hp. unfold JobRunner.dispatch. by rewrite Hs, Hp. Qed.

(** A reply with an opcode other than JOBRES. *)
Lemma _execute_bad_opcode self j timeout w worker opcode rest :
  answers self j timeout w worker (opcode :: rest) ->
  opcode <> "JOBRES" ->
  _execute self j timeout w
  = (JobRunner.with_workers self (delete worker (JobRunner.workers self)),
     Raise (ExecutionError
              (JobRunner.diagnostic (NotImplementedError (str_list (opcode :: rest))) w))).
Proof.
  intros (data & ws & bytes & Hser & Hco & Hs & Hp & Hr & Hmsg) Hop.
  apply (_execute_raises _ _ _ _ _ _ _ _ Hser Hco); [| done].
  rewrite (dispatch_answer _ _ _ _ Hs Hp Hr), Hmsg.
  by apply String.eqb_neq in Hop as ->.
Qed.

(** A JOBRES reply. *)
Lemma _execute_jobres self j timeout w worker rest :
  answers self j timeout w worker ("JOBRES" :: rest) ->
  _execute self j timeout w
  = (JobRunner.with_workers self
       (<[worker := Workers.IDLE]> (JobRunner.workers self)),
     Return (List.last ("JOBRES" :: rest) "JOBRES")).
Proof.
  intros (data & ws & bytes & Hser & Hco & Hs & Hp & Hr & Hmsg).
  apply (_execute_returns _ _ _ _ _ _ _ _ Hser Hco).
  by rewrite (dispatch_answer _ _ _ _ Hs Hp Hr), Hmsg.
Qed.

(** No reply before the deadline. *)
Lemma _execute_unanswered self j timeout w worker :
  unanswered self j timeout w worker ->
  _execute self j timeout w
  = (JobRunner.with_workers self (delete worker (JobRunner.workers self)),
     Raise (ExecutionError (JobRunner.diagnostic TimeoutError w))).
Proof.
  intros (data & ws & Hser & Hco & Hs & Hp).
  apply (_execute_raises _ _ _ _ _ _ _ _ Hser Hco); [| done].
  by apply dispatch_silence.
Qed.

(** The loop never calls [_execute] more often than it has rounds. *)
Lemma execute_loop_attempts n : forall i self j timeout world e,
  i <= (execute_loop n i self j timeout world e).2 <= i + n.
Proof.
  induction n as [| n IH]; intros i self j timeout world e; simpl.
  - destruct e; simpl; lia.
  - destruct (_execute self j timeout (world i)) as [self' [payload | e']]; simpl.
    + lia.
    + destruct (JobRunner.retryable e'); simpl; [| lia].
      specialize (IH (S i) self' j timeout world (Some e')). lia.
Qed.

Lemma execute_loop_S n i self j timeout world e :
  execute_loop (S n) i self j timeout world e
  = match _execute self j timeout (world i) with
    | (self', Return payload) => (self', Return (Some payload), S i)
    | (self', Raise e') =>
        if JobRunner.retryable e'
        then execute_loop n (S i) self' j timeout world (Some e')
        else (self', Raise e', S i)
    end.
Proof. reflexivity. Qed.

(** A loop with a round left calls [_execute] at least once more. *)
Lemma execute_loop_attempts_S n i self j timeout world e :
  S i <= (execute_loop (S n) i self j timeout world e).2.
Proof.
  rewrite execute_loop_S.
  destruct (_execute self j timeout (world i)) as [self' [payload | e']];
    simpl; [lia |].
  destruct (JobRunner.retryable e'); simpl; [| lia].
  apply execute_loop_attempts.
Qed.

Lemma _execute_round i self j timeout world :
  _execute (before_round i self j timeout world) j timeout (world i)
  = (before_round (S i) self j timeout world, round i self j timeout world).
Proof. unfold JobRunner.round. simpl. by destruct (_execute _ _ _ _). Qed.

(** Rounds that raise what the handler catches are passed over, the
    last exception being kept. *)
Lemma execute_loop_skip self j timeout world k : forall n i e0,
  (forall m, i <= m < i + S k ->
     exists e, round m self j timeout world = Raise e /\
               JobRunner.retryable e = true) ->
  exists e,
    round (i + k) self j timeout world = Raise e /\
    execute_loop (S k + n) i (before_round i self j timeout world) j timeout world e0
    = execute_loop n (S (i + k)) (before_round (S (i + k)) self j timeout world)
        j timeout world (Some e).
Proof.
  induction k as [| k IH]; intros n i e0 Hfail.
  - destruct (Hfail i) as (e & Hr & Hcaught); [lia |].
    exists e. rewrite Nat.add_0_r. split; [exact Hr |].
    change (1 + n) with (S n).
    by rewrite execute_loop_S, _execute_round, Hr, Hcaught.
  - destruct (Hfail i) as (e1 & Hr & Hcaught); [lia |].
    destruct (IH n (S i) (Some e1)) as (e & Hlast & Hloop).
    { intros m Hm. apply Hfail. lia. }
    exists e. replace (i + S k) with (S i + k) by lia.
    split; [exact Hlast |].
    change (S (S k) + n) with (S (S k + n)).
    by rewrite execute_loop_S, _execute_round, Hr, Hcaught.
Qed.

(** When round [k] is reached, [execute] is the loop from round [k]
    on, with a round to run. *)
Lemma execute_reaches self j timeout world k :
  reaches k self j timeout world ->
  exists n e0,
    Z.to_nat (JobRunner.retries self) = k + S n /\
    execute self j timeout world
    = execute_loop (S n) k (before_round k self j timeout world) j timeout world e0.
Proof.
  intros [Hk Hfail]. unfold JobRunner.execute.
  exists (Z.to_nat (JobRunner.retries self) - S k).
  destruct k as [| k].
  - exists None. split; [lia |].
    by replace (Z.to_nat (JobRunner.retries self))
      with (S (Z.to_nat (JobRunner.retries self) - 1)) at 1 by lia.
  - destruct (execute_loop_skip self j timeout world k
                (S (Z.to_nat (JobRunner.retries self) - S (S k))) 0 None)
      as (e & _ & Hloop).
    { intros m Hm. apply Hfail. lia. }
    exists (Some e). split; [lia |].
    replace (Z.to_nat (JobRunner.retries self))
      with (S k + S (Z.to_nat (JobRunner.retries self) - S (S k))) at 1 by lia.
    exact Hloop.
Qed.

End JobRunnerFacts.

Section JobRunnerClaims.

Variable select : gmap string Workers.state -> option string.
Variable serialize : Job -> outcome string.
Variable unserialize : string -> list string.
Variable str_list : list string -> string.

Local Abbreviation _execute :=
  (JobRunner._execute select serialize unserialize str_list).
Local Abbreviation execute :=
  (JobRunner.execute select serialize unserialize str_list).
Local Abbreviation before_round :=
  (JobRunner.before_round select serialize unserialize str_list).
Local Abbreviation round :=
  (JobRunner.round select serialize unserialize str_list).
Local Abbreviation reaches :=
  (JobRunner.reaches select serialize unserialize str_list).
Local Abbreviation answers := (JobRunner.answers select serialize unserialize).
Local Abbreviation unanswered := (JobRunner.unanswered select serialize).

(** C2, as amended: [JobRunner.execute] retries only [TimeoutError]
    and [ExecutionError]: when a round that is reached raises
    anything else, [execute] raises it at once, with no further
    attempt. A reply with an opcode other than JOBRES is not such a
    case: the worker that sent it is deleted from the registry, the
    round raises [ExecutionError], and when a round is left the job
    is dispatched again. *)
Theorem C2_bad_opcode_is_retried self j timeout world k :
  reaches k self j timeout world ->
  (forall e,
     round k self j timeout world = Raise e ->
     JobRunner.retryable e = false ->
     execute self j timeout world
     = (before_round (S k) self j timeout world, Raise e, S k)) /\
  (forall worker opcode rest,
     answers (before_round k self j timeout world) j timeout (world k) worker
       (opcode :: rest) ->
     opcode <> "JOBRES" ->
     (exists m, round k self j timeout world = Raise (ExecutionError m)) /\
     JobRunner.workers (before_round (S k) self j timeout world) !! worker = None /\
     (S k < Z.to_nat (JobRunner.retries self) ->
      S (S k) <= (execute self j timeout world).2)).
Proof.
  intros Hreach.
  destruct (execute_reaches select serialize unserialize str_list
              self j timeout world k Hreach) as (n & e0 & Hn & Hex).
  split.
  - intros e Hr Hfatal.
    by rewrite Hex, execute_loop_S, _execute_round, Hr, Hfatal.
  - intros worker opcode rest Hans Hop.
    pose proof (_execute_bad_opcode select serialize unserialize str_list
                  _ j timeout (world k) worker opcode rest Hans Hop) as Hbad.
    assert (Hr : round k self j timeout world
                 = Raise (ExecutionError
                     (JobRunner.diagnostic
                        (NotImplementedError (str_list (opcode :: rest))) (world k))))
      by (unfold JobRunner.round; by rewrite Hbad).
    split; [eauto | split].
    + cbn [JobRunner.before_round]. rewrite Hbad. simpl. apply lookup_delete_eq.
    + intros Hleft. rewrite Hex, execute_loop_S, _execute_round, Hr.
      simpl JobRunner.retryable. cbv iota.
      destruct n as [| n]; [lia |].
      apply execute_loop_attempts_S.
Qed.

(** C3, as the code has it: when no reply arrives before the deadline
    the checked-out worker is deleted from the registry, and
    [_execute] raises [ExecutionError] with the diagnostic of the
    timeout; it does not raise [TimeoutError]. *)
Theorem C3_timeout_leaves_as_execution_error self j timeout w worker :
  unanswered self j timeout w worker ->
  (_execute self j timeout w).2
    = Raise (ExecutionError (JobRunner.diagnostic TimeoutError w)) /\
  (_execute self j timeout w).2 <> Raise TimeoutError /\
  JobRunner.workers (_execute self j timeout w).1 !! worker = None.
Proof.
  intros Hun.
  rewrite (_execute_unanswered select serialize unserialize str_list
             self j timeout w worker Hun); simpl.
  split; [done | split; [discriminate | apply lookup_delete_eq]].
Qed.

(** C4: a runner built with the defaults has [retries = 3];
    [JobRunner.execute] calls [_execute] at most [retries] times; and
    when [retries] is positive and every round fails with an exception
    the handler catches, [execute] runs all the rounds and raises the
    exception of the last one. *)
Theorem C4_retries_then_last_error :
  JobRunner.retries JobRunner.default = 3%Z /\
  (forall self j timeout world,
     (Z.of_nat (execute self j timeout world).2
        <= Z.max 0 (JobRunner.retries self))%Z) /\
  (forall self j timeout world,
     (0 < JobRunner.retries self)%Z ->
     (forall k, k < Z.to_nat (JobRunner.retries self) ->
        exists e, round k self j timeout world = Raise e /\
                  JobRunner.retryable e = true) ->
     exists e,
       round (Z.to_nat (JobRunner.retries self) - 1) self j timeout world = Raise e /\
       (execute self j timeout world).1.2 = Raise e /\
       (execute self j timeout world).2 = Z.to_nat (JobRunner.retries self)).
Proof.
  split; [reflexivity | split].
  - intros self j timeout world. unfold JobRunner.execute.
    pose proof (execute_loop_attempts select serialize unserialize str_list
                  (Z.to_nat (JobRunner.retries self)) 0 self j timeout world None).
    lia.
  - intros self j timeout world Hpos Hfail. unfold JobRunner.execute.
    destruct (Z.to_nat (JobRunner.retries self)) as [| n] eqn:Hn; [lia |].
    destruct (execute_loop_skip select serialize unserialize str_list
                self j timeout world n 0 0 None) as (e & Hlast & Hloop).
    { intros k Hk. apply Hfail. lia. }
    exists e. simpl in Hlast, Hloop. rewrite Nat.add_0_r in Hloop.
    simpl. rewrite Nat.sub_0_r.
    split; [exact Hlast |]. by rewrite Hloop.
Qed.

(** C5, as amended: when the dispatch engine receives a JOBRES reply,
    whatever its ok byte, the worker goes back to IDLE and the last
    part of the reply, the payload, is returned as the result. *)
Theorem C5_jobres_returns_payload self j timeout w worker wid ok_byte payload :
  answers self j timeout w worker ["JOBRES"; wid; ok_byte; payload] ->
  (_execute self j timeout w).2 = Return payload /\
  JobRunner.workers (_execute self j timeout w).1 !! worker = Some Workers.IDLE.
Proof.
  intros Hans.
  rewrite (_execute_jobres select serialize unserialize str_list
             self j timeout w worker [wid; ok_byte; payload] Hans); simpl.
  split; [done | apply lookup_insert_eq].
Qed.

(** C8: [JobRunner.start] twice is [start] once, and [JobRunner.stop]
    twice is [stop] once; a [start] on a started runner and a [stop]
    on a stopped one change nothing. *)
Theorem C8_start_stop_idempotent (self : JobRunner.t) :
  JobRunner.start (JobRunner.start self) = JobRunner.start self /\
  JobRunner.stop (JobRunner.stop self) = JobRunner.stop self /\
  (if JobRunner.started self
   then JobRunner.start self = self
   else JobRunner.stop self = self).
Proof.
  unfold JobRunner.start, JobRunner.stop.
  destruct self as [[] endpoint ws reg n]; simpl; done.
Qed.

(** C9: with [retries <= 0], [JobRunner.execute] returns [None]: it
    never calls [_execute], raises nothing and leaves the runner as it
    was. *)
Theorem C9_no_retries_returns_none self j timeout world :
  (JobRunner.retries self <= 0)%Z ->
  execute self j timeout world = (self, Return None, 0).
Proof.
  intros Hle. unfold JobRunner.execute.
  by replace (Z.to_nat (JobRunner.retries self)) with 0 by lia.
Qed.

End JobRunnerClaims.

Section JobRunnerRuns.

Local Abbreviation _execute :=
  (JobRunner._execute Samples.select Samples.serialize Samples.unserialize
     Samples.str_list).
Local Abbreviation execute :=
  (JobRunner.execute Samples.select Samples.serialize Samples.unserialize
     Samples.str_list).
Local Abbreviation before_round :=
  (JobRunner.before_round Samples.select Samples.serialize Samples.unserialize
     Samples.str_list).
Local Abbreviation round :=
  (JobRunner.round Samples.select Samples.serialize Samples.unserialize
     Samples.str_list).
Local Abbreviation reaches :=
  (JobRunner.reaches Samples.select Samples.serialize Samples.unserialize
     Samples.str_list).
Local Abbreviation answers :=
  (JobRunner.answers Samples.select Samples.serialize Samples.unserialize).
Local Abbreviation unanswered :=
  (JobRunner.unanswered Samples.select Samples.serialize).

Lemma runner3_answers bytes :
  answers Samples.runner3 Samples.square 1 (Samples.says bytes) "w3"
    (Samples.unserialize bytes).
Proof.
  exists "JOB:square:7",
    (<["w3" := Workers.BUSY]> (JobRunner.workers Samples.runner3)), bytes.
  repeat split; vm_compute; reflexivity.
Qed.

Lemma runner3_unanswered :
  unanswered Samples.runner3 Samples.square 1 Samples.mute "w3".
Proof.
  exists "JOB:square:7",
    (<["w3" := Workers.BUSY]> (JobRunner.workers Samples.runner3)).
  repeat split; vm_compute; reflexivity.
Qed.

(** C2 as it was stated fails: the default runner, three idle workers,
    and PONG for an answer in every round. The first round gets the
    bad opcode from [w3]; [execute] goes on to call [_execute] three
    times in all, and every worker is gone from the registry. *)
Lemma C2_counterexample :
  answers Samples.runner3 Samples.square 1 (Samples.pong 0) "w3" ["PONG"] /\
  (execute Samples.runner3 Samples.square 1 Samples.pong).2 = 3 /\
  JobRunner.workers (execute Samples.runner3 Samples.square 1 Samples.pong).1.1 = ∅.
Proof.
  split; [apply (runner3_answers "PONG") |].
  split; vm_compute; reflexivity.
Qed.

Lemma late_pong_reaches_1 :
  reaches 1 Samples.runner3 Samples.square 1 Samples.late_pong.
Proof.
  split; [vm_compute; lia |].
  intros i Hi. destruct i as [| i]; [| lia].
  eexists. split; [vm_compute; reflexivity | reflexivity].
Qed.

Lemma late_pong_answers_1 :
  answers (before_round 1 Samples.runner3 Samples.square 1 Samples.late_pong)
    Samples.square 1 (Samples.late_pong 1) "w1" ["PONG"].
Proof.
  exists "JOB:square:7",
    (<["w1" := Workers.BUSY]>
       (JobRunner.workers
          (before_round 1 Samples.runner3 Samples.square 1 Samples.late_pong))),
    "PONG".
  repeat split; vm_compute; reflexivity.
Qed.

(** Round 0 times out, round 1 gets PONG from [w1]: [w1] is deleted
    and a third call of [_execute] is made. *)
Lemma C2_bad_opcode_is_retried_witness :
  reaches 1 Samples.runner3 Samples.square 1 Samples.late_pong /\
  answers (before_round 1 Samples.runner3 Samples.square 1 Samples.late_pong)
    Samples.square 1 (Samples.late_pong 1) "w1" ["PONG"] /\
  JobRunner.workers (before_round 2 Samples.runner3 Samples.square 1 Samples.late_pong)
    !! "w1" = None /\
  3 <= (execute Samples.runner3 Samples.square 1 Samples.late_pong).2.
Proof.
  destruct (proj2 (C2_bad_opcode_is_retried
              Samples.select Samples.serialize Samples.unserialize Samples.str_list
              Samples.runner3 Samples.square 1 Samples.late_pong 1
              late_pong_reaches_1) "w1" "PONG" [] late_pong_answers_1)
    as (_ & Hgone & Hagain); [discriminate |].
  split; [exact late_pong_reaches_1 | split; [exact late_pong_answers_1 |]].
  split; [exact Hgone | apply Hagain; vm_compute; lia].
Defined.

(** Worker [w3] is handed out and stays silent: [ExecutionError]. *)
Lemma C3_timeout_leaves_as_execution_error_witness :
  unanswered Samples.runner3 Samples.square 1 Samples.mute "w3" /\
  (_execute Samples.runner3 Samples.square 1 Samples.mute).2
    = Raise (ExecutionError (JobRunner.diagnostic TimeoutError Samples.mute)) /\
  JobRunner.workers (_execute Samples.runner3 Samples.square 1 Samples.mute).1 !! "w3"
    = None.
Proof.
  pose proof (C3_timeout_leaves_as_execution_error
                Samples.select Samples.serialize Samples.unserialize Samples.str_list
                Samples.runner3 Samples.square 1 Samples.mute "w3"
                runner3_unanswered) as (Hraise & _ & Hgone).
  exact (conj runner3_unanswered (conj Hraise Hgone)).
Defined.

Lemma silence_rounds_fail k :
  k < 3 ->
  exists e, round k Samples.runner3 Samples.square 1 Samples.silence = Raise e /\
            JobRunner.retryable e = true.
Proof.
  intros Hk. destruct k as [| [| [| k]]]; [| | | lia];
    eexists; (split; [vm_compute; reflexivity | reflexivity]).
Qed.

(** Three rounds, none answered: [execute] raises what round 2 raised,
    after three calls of [_execute]. *)
Lemma C4_retries_then_last_error_witness :
  (0 < JobRunner.retries Samples.runner3)%Z /\
  exists e,
    round 2 Samples.runner3 Samples.square 1 Samples.silence = Raise e /\
    (execute Samples.runner3 Samples.square 1 Samples.silence).1.2 = Raise e /\
    (execute Samples.runner3 Samples.square 1 Samples.silence).2 = 3.
Proof.
  assert (Hpos : (0 < JobRunner.retries Samples.runner3)%Z) by reflexivity.
  split; [exact Hpos |].
  exact (proj2 (proj2 (C4_retries_then_last_error
           Samples.select Samples.serialize Samples.unserialize Samples.str_list))
           Samples.runner3 Samples.square 1%float Samples.silence Hpos
           silence_rounds_fail).
Defined.

(** C5 as it was stated fails: worker [w3] answers JOBRES with an ok
    byte that says no and the payload [boom]; [_execute] returns
    [boom] as the result and raises nothing. An ok byte that says yes
    gives the same. *)
Lemma C5_counterexample :
  answers Samples.runner3 Samples.square 1 (Samples.says "JOBRES:w3:0:boom") "w3"
    ["JOBRES"; "w3"; "0"; "boom"] /\
  (_execute Samples.runner3 Samples.square 1 (Samples.says "JOBRES:w3:0:boom")).2
    = Return "boom" /\
  (_execute Samples.runner3 Samples.square 1 (Samples.says "JOBRES:w3:0:boom")).2
    <> Raise (ExecutionError "boom") /\
  (_execute Samples.runner3 Samples.square 1 (Samples.says "JOBRES:w3:1:boom")).2
    = Return "boom".
Proof.
  split; [apply (runner3_answers "JOBRES:w3:0:boom") |].
  split; [vm_compute; reflexivity |].
  split; [vm_compute; discriminate | vm_compute; reflexivity].
Qed.

(** Worker [w3] answers JOBRES with the payload 49. *)
Lemma C5_jobres_returns_payload_witness :
  answers Samples.runner3 Samples.square 1 (Samples.says "JOBRES:w3:1:49") "w3"
    ["JOBRES"; "w3"; "1"; "49"] /\
  (_execute Samples.runner3 Samples.square 1 (Samples.says "JOBRES:w3:1:49")).2
    = Return "49" /\
  JobRunner.workers
    (_execute Samples.runner3 Samples.square 1 (Samples.says "JOBRES:w3:1:49")).1
    !! "w3" = Some Workers.IDLE.
Proof.
  assert (Hans : answers Samples.runner3 Samples.square 1
                   (Samples.says "JOBRES:w3:1:49") "w3"
                   ["JOBRES"; "w3"; "1"; "49"])
    by apply (runner3_answers "JOBRES:w3:1:49").
  split; [exact Hans |].
  exact (C5_jobres_returns_payload
           Samples.select Samples.serialize Samples.unserialize Samples.str_list
           Samples.runner3 Samples.square 1 _ "w3" "w3" "1" "49" Hans).
Defined.

(** A runner built with [retries=0]. *)
Lemma C9_no_retries_returns_none_witness :
  (JobRunner.retries (JobRunner.__init__ JobRunner._ENDPOINT 0) <= 0)%Z /\
  execute (JobRunner.__init__ JobRunner._ENDPOINT 0) Samples.square 1 Samples.pong
  = (JobRunner.__init__ JobRunner._ENDPOINT 0, Return None, 0).
Proof.
  assert (Hle : (JobRunner.retries (JobRunner.__init__ JobRunner._ENDPOINT 0) <= 0)%Z)
    by (simpl; lia).
  split; [exact Hle |].
  exact (C9_no_retries_returns_none
           Samples.select Samples.serialize Samples.unserialize Samples.str_list
           (JobRunner.__init__ JobRunner._ENDPOINT 0) Samples.square 1
           Samples.pong Hle).
Defined.

End JobRunnerRuns.

(** * The scenarios of the specification, run on the model *)

Section Scenarios.

Local Abbreviation call := (Client.execute Samples.extract_result).

(** Square worker: the reply comes within the soft timeout, the byte
    string 49 is returned and the counter of the worker stays 0. *)
Example square_worker :
  (call Client.default Samples.square7 None (Samples.answered "w1:OK:49" 0.2)).2
    = Return "49" /\
  Client.counter
    (call Client.default Samples.square7 None (Samples.answered "w1:OK:49" 0.2)).1
    "w1" = 0%Z.
Proof. split; vm_compute; reflexivity. Qed.

(** Slow worker: 1.2 s against a soft timeout of 1 s and a budget of 1.
    The first call returns and leaves the counter at 1; the second
    raises [TimeoutError]. *)
Example slow_worker :
  (call Client.default Samples.square7 None (Samples.answered "w1:OK:ok" 1.2)).2
    = Return "ok" /\
  Client.counter Samples.slowed "w1" = 1%Z /\
  (call Samples.slowed Samples.square7 None (Samples.answered "w1:OK:ok" 1.2)).2
    = Raise TimeoutError.
Proof. repeat split; vm_compute; reflexivity. Qed.

(** Recovered worker: after one slow call, a call of 0.2 s returns and
    resets the counter. *)
Example recovered_worker :
  (call Samples.slowed Samples.square7 None (Samples.answered "w1:OK:ok" 0.2)).2
    = Return "ok" /\
  Client.counter
    (call Samples.slowed Samples.square7 None (Samples.answered "w1:OK:ok" 0.2)).1
    "w1" = 0%Z.
Proof. split; vm_compute; reflexivity. Qed.

(** Counters are per worker: a late reply from [w2] is tolerated by a
    client that has used up its budget for [w1]. *)
Example independent_budgets :
  (call Samples.slowed Samples.square7 None (Samples.answered "w2:OK:ok" 1.2)).2
    = Return "ok".
Proof. vm_compute; reflexivity. Qed.

(** Worker crash: the first worker never answers and is deleted; the
    retry lands on a healthy worker and succeeds after two calls of
    [_execute]. *)
Example crash_then_retry :
  let run := JobRunner.execute Samples.select Samples.serialize Samples.unserialize
               Samples.str_list
               Samples.runner3 Samples.square 1 Samples.healed in
  run.1.2 = Return (Some "49") /\
  run.2 = 2 /\
  JobRunner.workers run.1.1 !! "w3" = None.
Proof. repeat split; vm_compute; reflexivity. Qed.

End Scenarios.

(** * Further properties of [Client] *)

Section ClientMore.

Variable extract_result : string -> outcome (string * bool * string).

Local Abbreviation execute := (Client.execute extract_result).
Local Abbreviation replied := (Client.replied extract_result).
Local Abbreviation client_calls := (Runs.client_calls extract_result).
Local Abbreviation late_reply := (Runs.late_reply extract_result).

(** Every call leaves the client as it was or with one counter set
    anew, to zero or to one more than before. *)
Lemma execute_shape self j timeout w :
  (execute self j timeout w).1 = self \/
  exists wid,
    (execute self j timeout w).1 = Client.set_counter self wid 0 \/
    (execute self j timeout w).1
      = Client.set_counter self wid (Client.counter self wid + 1).
Proof.
  unfold Client.execute, Client._execute; simpl.
  destruct (Client.send w) as [[] | e]; simpl; [| by left].
  destruct (Client.poll w _) as [[] | e]; simpl; [| by left | by left].
  destruct (Client.recv w) as [reply | e]; simpl; [| by left].
  destruct (extract_result reply) as [[[wid ok] data] | e]; [| by left].
  right. exists wid.
  destruct (Client.over_soft self w).
  - right. by destruct (_ <? _)%Z, ok.
  - left. by destruct ok.
Qed.

Lemma execute_same_settings self j timeout w :
  Runs.same_settings (execute self j timeout w).1 self.
Proof.
  destruct (execute_shape self j timeout w) as [-> | (wid & [-> | ->])];
    by repeat split.
Qed.

Lemma replied_same_settings self self' timeout w wid ok data :
  Runs.same_settings self' self ->
  replied self timeout w wid ok data ->
  replied self' timeout w wid ok data.
Proof.
  intros (_ & _ & Hhard & _) (reply & Hs & Hp & Hr & Hx).
  exists reply. by rewrite Hhard.
Qed.

(** X1: a call that receives a reply from worker [wid] touches the
    counter of [wid] and nothing else: the counters of the other
    workers and the settings of the client are as before. *)
Theorem client_reply_touches_one_counter self j timeout w wid ok data :
  replied self timeout w wid ok data ->
  (forall k, k <> wid ->
     Client.counter (execute self j timeout w).1 k = Client.counter self k) /\
  Runs.same_settings (execute self j timeout w).1 self.
Proof.
  intros Hrep. split; [| apply execute_same_settings].
  intros k Hk.
  destruct (Client.over_soft self w) eqn:Hlate.
  - destruct (Z_lt_le_dec (Client.timeout_overflows self)
                (Client.counter self wid + 1)) as [Hover | Hin].
    + rewrite (execute_late_over _ _ _ _ _ _ _ _ Hrep Hlate Hover); simpl.
      by apply counter_set_counter_ne.
    + rewrite (execute_late_within _ _ _ _ _ _ _ _ Hrep Hlate Hin); simpl.
      by apply counter_set_counter_ne.
  - rewrite (execute_on_time _ _ _ _ _ _ _ _ Hrep Hlate); simpl.
    by apply counter_set_counter_ne.
Qed.

(** X2: [Client.execute] returns a payload only for a reply whose ok
    flag is true and which is within the overflow budget, the
    duration being the one the code measures. *)
Theorem client_return_means_ok_reply self j timeout w data :
  (execute self j timeout w).2 = Return data ->
  exists wid,
    replied self timeout w wid true data /\ Client.within_budget self w wid.
Proof.
  unfold Client.execute, Client._execute, Client.replied; simpl.
  destruct (Client.send w) as [[] | e] eqn:Hs; simpl; [| done].
  destruct (Client.poll w _) as [[] | e] eqn:Hp; simpl; [| done | done].
  destruct (Client.recv w) as [reply | e] eqn:Hr; simpl; [| done].
  destruct (extract_result reply) as [[[wid ok] data'] | e] eqn:Hx; [| done].
  destruct (Client.over_soft self w) eqn:Hlate.
  - rewrite counter_set_counter; simpl.
    destruct (_ <? _)%Z eqn:Hover; [done |].
    apply Z.ltb_ge in Hover.
    destruct ok; simpl; intros; simplify_eq.
    exists wid. split; [by exists reply | by right].
  - destruct ok; simpl; intros; simplify_eq.
    exists wid. split; [by exists reply | by left].
Qed.

(** X3: a client changes only when a reply was received and decoded:
    after a failure to send, an expired poll, a failure to receive or
    an undecodable reply it is exactly as before. *)
Theorem client_changes_only_on_reply self j timeout w :
  (execute self j timeout w).1 = self \/
  exists wid ok data, replied self timeout w wid ok data.
Proof.
  unfold Client.execute, Client._execute, Client.replied; simpl.
  destruct (Client.send w) as [[] | e] eqn:Hs; simpl; [| by left].
  destruct (Client.poll w _) as [[] | e] eqn:Hp; simpl; [| by left | by left].
  destruct (Client.recv w) as [reply | e] eqn:Hr; simpl; [| by left].
  destruct (extract_result reply) as [[[wid ok] data] | e] eqn:Hx; [| by left].
  right. exists wid, ok, data, reply. done.
Qed.

Lemma execute_counter_nonneg self j timeout w :
  (forall k, (0 <= Client.counter self k)%Z) ->
  forall k, (0 <= Client.counter (execute self j timeout w).1 k)%Z.
Proof.
  intros Hpos k.
  destruct (execute_shape self j timeout w) as [-> | (wid & [-> | ->])];
    [done | |];
    (destruct (decide (wid = k)) as [-> | Hne];
     [rewrite counter_set_counter | by rewrite counter_set_counter_ne]).
  - lia.
  - specialize (Hpos k). lia.
Qed.

(** X4: overflow counters never go negative, whatever the calls made
    on the client and however they end. *)
Theorem client_counters_nonneg calls : forall self,
  (forall k, (0 <= Client.counter self k)%Z) ->
  forall k, (0 <= Client.counter (client_calls self calls).1 k)%Z.
Proof.
  induction calls as [| [[j timeout] w] calls IH]; intros self Hpos k; simpl.
  - apply Hpos.
  - apply IH. by apply execute_counter_nonneg.
Qed.

Lemma late_reply_same_settings self self' wid c :
  Runs.same_settings self' self -> late_reply self wid c -> late_reply self' wid c.
Proof.
  intros Hsame [(ok & data & Hrep) Hlate]. split.
  - exists ok, data. by eapply replied_same_settings.
  - unfold Client.over_soft. destruct Hsame as (_ & -> & _). done.
Qed.

(** X5: once the budget of a worker is used up, a run of replies from
    it whose measured duration is over the soft timeout raises
    [TimeoutError] every time, and each of them still adds one to its
    counter: raising does not reset it. *)
Theorem client_late_streak_keeps_failing wid calls : forall self,
  (Client.timeout_overflows self <= Client.counter self wid)%Z ->
  Forall (late_reply self wid) calls ->
  (client_calls self calls).2 = replicate (length calls) (Raise TimeoutError) /\
  Client.counter (client_calls self calls).1 wid
    = (Client.counter self wid + Z.of_nat (length calls))%Z.
Proof.
  induction calls as [| [[j timeout] w] calls IH]; intros self Hused Hlate.
  - simpl. split; [done | lia].
  - apply Forall_cons in Hlate as [[(ok & data & Hrep) Hlt] Hrest].
    simpl in Hrep, Hlt.
    assert (Hover : (Client.timeout_overflows self < Client.counter self wid + 1)%Z)
      by lia.
    pose proof (execute_late_over extract_result self j timeout w wid ok data
                  Hrep Hlt Hover) as Hex.
    cbn [Runs.client_calls]. rewrite Hex. cbn [fst snd].
    set (self' := Client.set_counter self wid (Client.counter self wid + 1)).
    assert (Hsame : Runs.same_settings self' self) by by repeat split.
    assert (Hc : Client.counter self' wid = (Client.counter self wid + 1)%Z)
      by apply counter_set_counter.
    destruct (IH self') as [Hrs Hcount].
    + rewrite Hc. simpl. lia.
    + eapply Forall_impl; [exact Hrest |].
      intros c Hc'. by eapply late_reply_same_settings.
    + split.
      * by rewrite Hrs.
      * rewrite Hcount, Hc. cbn [length]. lia.
Qed.

End ClientMore.

Section ClientMoreRuns.

Local Abbreviation call := (Client.execute Samples.extract_result).
Local Abbreviation calls_on := (Runs.client_calls Samples.extract_result).

(** A late reply from [w2] leaves the counter of [w1] where it was. *)
Lemma client_reply_touches_one_counter_witness :
  Client.replied Samples.extract_result Samples.slowed None
    (Samples.answered "w2:OK:ok" 1.2) "w2" true "ok" /\
  Client.counter
    (call Samples.slowed Samples.square7 None (Samples.answered "w2:OK:ok" 1.2)).1
    "w1" = Client.counter Samples.slowed "w1".
Proof.
  assert (Hrep : Client.replied Samples.extract_result Samples.slowed None
                   (Samples.answered "w2:OK:ok" 1.2) "w2" true "ok").
  { exists "w2:OK:ok". repeat split; reflexivity. }
  split; [exact Hrep |].
  refine (proj1 (client_reply_touches_one_counter Samples.extract_result
            Samples.slowed Samples.square7 None _ "w2" true "ok" Hrep) "w1" _).
  discriminate.
Defined.

(** The square worker's answer is returned: so it was an ok reply
    within budget. *)
Lemma client_return_means_ok_reply_witness :
  (call Client.default Samples.square7 None (Samples.answered "w1:OK:49" 0.2)).2
    = Return "49" /\
  exists wid,
    Client.replied Samples.extract_result Client.default None
      (Samples.answered "w1:OK:49" 0.2) wid true "49" /\
    Client.within_budget Client.default (Samples.answered "w1:OK:49" 0.2) wid.
Proof.
  assert (Hret : (call Client.default Samples.square7 None
                    (Samples.answered "w1:OK:49" 0.2)).2 = Return "49")
    by (vm_compute; reflexivity).
  split; [exact Hret |].
  exact (client_return_means_ok_reply Samples.extract_result Client.default
           Samples.square7 None _ "49" Hret).
Defined.

Lemma default_counters_zero k : (0 <= Client.counter Client.default k)%Z.
Proof. unfold Client.counter; simpl. by rewrite lookup_empty. Qed.

(** The default client, one call answered and one not. *)
Lemma client_counters_nonneg_witness :
  (forall k, (0 <= Client.counter Client.default k)%Z) /\
  (0 <= Client.counter (calls_on Client.default Samples.two_client_calls).1 "w1")%Z.
Proof.
  split; [exact default_counters_zero |].
  exact (client_counters_nonneg Samples.extract_result Samples.two_client_calls
           Client.default default_counters_zero "w1").
Defined.

Lemma slowed_late_streak :
  Forall (Runs.late_reply Samples.extract_result Samples.slowed "w1")
    [(Samples.square7, None, Samples.answered "w1:OK:a" 1.2);
     (Samples.square7, None, Samples.answered "w1:ERR:b" 1.4)].
Proof.
  repeat constructor.
  - exists true, "a", "w1:OK:a". repeat split; reflexivity.
  - exists false, "b", "w1:ERR:b". repeat split; reflexivity.
Qed.

(** The counter of [w1] stands at the budget, 1; two more late replies
    from [w1] both raise and take it to 3. *)
Lemma client_late_streak_keeps_failing_witness :
  (Client.timeout_overflows Samples.slowed <= Client.counter Samples.slowed "w1")%Z /\
  (calls_on Samples.slowed
     [(Samples.square7, None, Samples.answered "w1:OK:a" 1.2);
      (Samples.square7, None, Samples.answered "w1:ERR:b" 1.4)]).2
    = [Raise TimeoutError; Raise TimeoutError] /\
  Client.counter
    (calls_on Samples.slowed
       [(Samples.square7, None, Samples.answered "w1:OK:a" 1.2);
        (Samples.square7, None, Samples.answered "w1:ERR:b" 1.4)]).1 "w1"
    = (Client.counter Samples.slowed "w1" + 2)%Z.
Proof.
  assert (Hused : (Client.timeout_overflows Samples.slowed
                     <= Client.counter Samples.slowed "w1")%Z)
    by (vm_compute; discriminate).
  split; [exact Hused |].
  exact (client_late_streak_keeps_failing Samples.extract_result "w1" _
           Samples.slowed Hused slowed_late_streak).
Defined.

End ClientMoreRuns.


(** * Further properties of [Pool] *)

Section PoolMore.

Variable extract_result : string -> outcome (string * bool * string).

Local Abbreviation pool_execute := (Pool.execute extract_result).
Local Abbreviation client_execute := (Client.execute extract_result).

Local Abbreviation new_client self :=
  (Client.__init__ (Pool.frontend self) (Pool.timeout self)
     (Pool.timeout_max_overflow self) (Pool.timeout_overflows self)).

(** X6: a pool that [Pool.__init__] returns holds [max 0 size]
    clients, every one of them a new [Client] built from the pool's
    own frontend, timeouts and budget (so with the timeouts in
    milliseconds and no counter set); and [__init__] returns a pool
    whenever the constructors of its clients all return. *)
Theorem pool_init_fabrics size frontend timeout timeout_max_overflow
    timeout_overflows zmq :
  (forall pool,
     Pool.__init__ size frontend timeout timeout_max_overflow timeout_overflows zmq
     = Return pool ->
     Pool._connectors pool
     = replicate (Z.to_nat (Z.max 0 size))
         (Client.__init__ frontend timeout timeout_max_overflow timeout_overflows)) /\
  ((forall i, i < Z.to_nat size -> zmq i = Return tt) ->
   exists pool,
     Pool.__init__ size frontend timeout timeout_max_overflow timeout_overflows zmq
     = Return pool).
Proof.
  split.
  - intros pool Hinit. rewrite (init_connectors _ _ _ _ _ _ _ Hinit).
    by replace (Z.to_nat (Z.max 0 size)) with (Z.to_nat size) by lia.
  - intros Hzmq. apply fill_built. intros k Hk. apply Hzmq. lia.
Qed.

Lemma get_head {A} (connector : A) rest timeout :
  timeout = None \/ (exists s, timeout = Some s /\ (s <? 0)%float = false) ->
  Queue.get (connector :: rest) timeout = Queue.Item connector rest.
Proof.
  intros [-> | (s & -> & Hs)]; [done |]. unfold Queue.get. by rewrite Hs.
Qed.

(** X7: with a fabric available and a timeout that is absent or not
    negative, [Pool.execute] serves the call with the fabric at the
    head of the queue. When that fabric's [execute] returns, its
    result is returned and the fabric goes to the back of the queue.
    When it raises an [Exception], a new client is built: if that
    succeeds the new client goes to the back and the same exception
    is raised, without a retry; if the constructor raises, its
    exception is raised and nothing is put back. An exception that
    is no [Exception] is raised as it is and nothing is put back. *)
Theorem pool_execute_rotates self j timeout w connector rest :
  Pool._connectors self = connector :: rest ->
  timeout = None \/ (exists s, timeout = Some s /\ (s <? 0)%float = false) ->
  (forall res,
     (client_execute connector j timeout (Pool.call w)).2 = Return res ->
     pool_execute self j timeout w
     = Some (Pool.with_connectors self
               (rest ++ [(client_execute connector j timeout (Pool.call w)).1])%list,
             Return res)) /\
  (forall e,
     (client_execute connector j timeout (Pool.call w)).2 = Raise e ->
     is_Exception e = true ->
     Pool.rebuild w = Return tt ->
     pool_execute self j timeout w
     = Some (Pool.with_connectors self (rest ++ [new_client self])%list, Raise e)) /\
  (forall e e',
     (client_execute connector j timeout (Pool.call w)).2 = Raise e ->
     is_Exception e = true ->
     Pool.rebuild w = Raise e' ->
     pool_execute self j timeout w = Some (Pool.with_connectors self rest, Raise e')) /\
  (forall e,
     (client_execute connector j timeout (Pool.call w)).2 = Raise e ->
     is_Exception e = false ->
     pool_execute self j timeout w = Some (Pool.with_connectors self rest, Raise e)).
Proof.
  intros Hq Htimeout.
  unfold Pool.execute, Pool.settle. rewrite Hq, (get_head _ _ _ Htimeout).
  destruct (Client.execute _ _ _ _ _) as [connector' r]; cbn [fst snd].
  repeat split.
  - by intros res ->.
  - by intros e -> -> ->.
  - by intros e e' -> -> ->.
  - by intros e -> ->.
Qed.

(** X8: on a pool without fabrics (built with [size <= 0], which
    calls no constructor) [Pool.execute] never serves a call: without
    a timeout it blocks for ever, with a finite timeout that is not
    negative it raises [Empty] and leaves the pool as it was. *)
Theorem pool_without_fabrics size frontend timeout_ timeout_max_overflow
    timeout_overflows zmq j w :
  (size <= 0)%Z ->
  exists pool,
    Pool.__init__ size frontend timeout_ timeout_max_overflow timeout_overflows zmq
    = Return pool /\
    pool_execute pool j None w = None /\
    (forall s, (s <? 0)%float = false -> is_finite s = true ->
       pool_execute pool j (Some s) w = Some (pool, Raise QueueEmpty)).
Proof.
  intros Hsize. unfold Pool.__init__.
  replace (Z.to_nat size) with 0 by lia. simpl.
  eexists. split; [reflexivity |]. split; [done |].
  intros s Hs Hfin. unfold Pool.execute, Queue.get; simpl. by rewrite Hs, Hfin.
Qed.

(** X9: a negative timeout is refused before any fabric is taken:
    [Pool.execute] raises [ValueError], calls no client and leaves
    the queue untouched, even when fabrics are waiting. *)
Theorem pool_negative_timeout self j s w :
  (s <? 0)%float = true ->
  exists msg,
    Pool.execute extract_result self j (Some s) w
    = Some (self, Raise (ValueError msg)).
Proof.
  intros Hs. unfold Pool.execute, Queue.get. rewrite Hs. eauto.
Qed.

Lemma settle_settings self connector j timeout w fresh :
  new_client self = fresh ->
  Forall (fun c => Runs.same_settings c fresh) (Pool._connectors self) ->
  Runs.same_settings connector fresh ->
  Forall (fun c => Runs.same_settings c fresh)
    (Pool._connectors (Pool.settle extract_result self connector j timeout w).1) /\
  new_client (Pool.settle extract_result self connector j timeout w).1 = fresh.
Proof.
  intros Hfresh Hall Hc. unfold Pool.settle.
  pose proof (execute_same_settings extract_result connector j timeout (Pool.call w))
    as Hsame.
  destruct (Client.execute _ _ _ _ _) as [connector' [res | e]]; simpl in Hsame.
  - split; [| done]. apply Forall_app. split; [done |].
    constructor; [| done].
    destruct Hsame as (? & ? & ? & ?), Hc as (? & ? & ? & ?).
    repeat split; congruence.
  - destruct (is_Exception e); [| done].
    destruct (Pool._create_client self (Pool.rebuild w)) as [c | e'] eqn:Hnew;
      [| done].
    apply create_client_inv in Hnew as ->.
    split; [| done]. apply Forall_app. split; [done |].
    constructor; [| done]. rewrite Hfresh. by repeat split.
Qed.

Lemma execute_settings self j timeout w self' r fresh :
  new_client self = fresh ->
  Forall (fun c => Runs.same_settings c fresh) (Pool._connectors self) ->
  pool_execute self j timeout w = Some (self', r) ->
  Forall (fun c => Runs.same_settings c fresh) (Pool._connectors self') /\
  new_client self' = fresh.
Proof.
  intros Hfresh Hall. unfold Pool.execute.
  destruct (Queue.get _ _) as [connector rest | e |] eqn:Hget; [| | done].
  - apply queue_get_item in Hget. rewrite Hget in Hall.
    apply Forall_cons in Hall as [Hc Hrest]. intros Heq.
    assert (Hst : Pool.settle extract_result (Pool.with_connectors self rest)
                    connector j timeout w = (self', r)) by congruence.
    pose proof (settle_settings (Pool.with_connectors self rest)
                  connector j timeout w fresh Hfresh Hrest Hc) as Hinv.
    by rewrite Hst in Hinv.
  - intros; by simplify_eq.
Qed.

(** X10: every fabric of a pool keeps the pool's settings for good:
    after any sequence of calls, whether they returned or raised, each
    client on the queue has the frontend, soft and hard timeout and
    budget the pool was built with. *)
Theorem pool_fabrics_keep_settings size frontend timeout timeout_max_overflow
    timeout_overflows zmq pool calls pool' :
  Pool.__init__ size frontend timeout timeout_max_overflow timeout_overflows zmq
  = Return pool ->
  Pool.execute_all extract_result pool calls = Some pool' ->
  Forall (fun c => Runs.same_settings c
            (Client.__init__ frontend timeout timeout_max_overflow timeout_overflows))
    (Pool._connectors pool').
Proof.
  set (fresh := Client.__init__ _ _ _ _). intros Hinit.
  assert (Hinv : new_client pool = fresh /\
                 Forall (fun c => Runs.same_settings c fresh) (Pool._connectors pool)).
  { unfold Pool.__init__ in Hinit. apply fill_inv in Hinit as [Hq Hcfg].
    assert (Hnew : new_client pool = fresh).
    { change (new_client pool) with (new_client (Pool.with_connectors pool [])).
      by rewrite Hcfg. }
    split; [exact Hnew |]. rewrite Hq. simpl. apply Forall_replicate.
    by repeat split. }
  clear Hinit. revert pool Hinv.
  induction calls as [| [[j t] w] calls IH]; intros pool [Hnew Hall] Hrun;
    simpl in Hrun.
  - by injection Hrun as <-.
  - destruct (Pool.execute _ _ _ _ _) as [[self1 r] |] eqn:Hex; [| done].
    destruct (execute_settings _ _ _ _ _ _ _ Hnew Hall Hex) as [Hall1 Hnew1].
    by apply (IH self1).
Qed.

End PoolMore.

Section PoolMoreRuns.

(** A pool of two serves a call that is answered in 0.2 s: the fabric
    that served it is at the back of the queue. *)
Lemma pool_execute_rotates_witness :
  Pool._connectors Samples.pool2 = [Samples.fresh; Samples.fresh] /\
  Pool.execute Samples.extract_result Samples.pool2 Samples.square7 None
    (Samples.served (Samples.answered "w1:OK:49" 0.2))
  = Some (Pool.with_connectors Samples.pool2
            [Samples.fresh;
             (Client.execute Samples.extract_result Samples.fresh Samples.square7
                None (Samples.answered "w1:OK:49" 0.2)).1],
          Return "49").
Proof.
  assert (Hq : Pool._connectors Samples.pool2 = [Samples.fresh; Samples.fresh])
    by reflexivity.
  split; [exact Hq |].
  refine (proj1 (pool_execute_rotates Samples.extract_result Samples.pool2
            Samples.square7 None (Samples.served (Samples.answered "w1:OK:49" 0.2))
            Samples.fresh [Samples.fresh] Hq (or_introl eq_refl)) "49" _).
  vm_compute; reflexivity.
Defined.

(** A pool built with [size=0], called with a timeout of 2 s. *)
Lemma pool_without_fabrics_witness :
  (0 <= 0)%Z /\
  exists pool,
    Pool.__init__ 0 Client.DEFAULT_FRONTEND 4 5 1 Samples.built = Return pool /\
    Pool.execute Samples.extract_result pool Samples.square7 None
      (Samples.served (Samples.silent 5)) = None /\
    Pool.execute Samples.extract_result pool Samples.square7 (Some 2%float)
      (Samples.served (Samples.silent 5)) = Some (pool, Raise QueueEmpty).
Proof.
  assert (Hsize : (0 <= 0)%Z) by lia.
  split; [exact Hsize |].
  destruct (pool_without_fabrics Samples.extract_result 0
              Client.DEFAULT_FRONTEND 4 5 1 Samples.built Samples.square7
              (Samples.served (Samples.silent 5)) Hsize)
    as (pool & Hinit & Hblock & Hempty).
  exists pool. split; [exact Hinit | split; [exact Hblock |]].
  apply Hempty; reflexivity.
Defined.

(** A pool of two, called with [timeout=-1]. *)
Lemma pool_negative_timeout_witness :
  ((-1) <? 0)%float = true /\
  exists msg,
    Pool.execute Samples.extract_result Samples.pool2 Samples.square7
      (Some (-1)%float) (Samples.served (Samples.silent 5))
    = Some (Samples.pool2, Raise (ValueError msg)).
Proof.
  assert (Hneg : ((-1) <? 0)%float = true) by reflexivity.
  split; [exact Hneg |].
  exact (pool_negative_timeout Samples.extract_result Samples.pool2
           Samples.square7 (-1)%float (Samples.served (Samples.silent 5)) Hneg).
Defined.

(** A pool of two after a call that returned and one that raised. *)
Lemma pool_fabrics_keep_settings_witness :
  Pool.__init__ 2 Client.DEFAULT_FRONTEND 4 5 1 Samples.built = Return Samples.pool2 /\
  exists pool',
    Pool.execute_all Samples.extract_result Samples.pool2 Samples.two_calls
    = Some pool' /\
    Forall (fun c => Runs.same_settings c Samples.fresh) (Pool._connectors pool').
Proof.
  split; [exact pool2_built |].
  eexists. split; [vm_compute; reflexivity |].
  refine (pool_fabrics_keep_settings Samples.extract_result 2
            Client.DEFAULT_FRONTEND 4 5 1 Samples.built Samples.pool2
            Samples.two_calls _ pool2_built _).
  vm_compute; reflexivity.
Defined.

End PoolMoreRuns.

(** * Further properties of [JobRunner] *)

Section JobRunnerMore.

Variable select : gmap string Workers.state -> option string.
Variable serialize : Job -> outcome string.
Variable unserialize : string -> list string.
Variable str_list : list string -> string.

Local Abbreviation _execute :=
  (JobRunner._execute select serialize unserialize str_list).
Local Abbreviation dispatch := (JobRunner.dispatch unserialize str_list).
Local Abbreviation execute_loop :=
  (JobRunner.execute_loop select serialize unserialize str_list).
Local Abbreviation execute :=
  (JobRunner.execute select serialize unserialize str_list).
Local Abbreviation before_round :=
  (JobRunner.before_round select serialize unserialize str_list).
Local Abbreviation round :=
  (JobRunner.round select serialize unserialize str_list).
Local Abbreviation reaches :=
  (JobRunner.reaches select serialize unserialize str_list).
Local Abbreviation answers := (JobRunner.answers select serialize unserialize).

(** What an attempt leaves behind: the runner as it was when the job
    could not be serialized or no worker could be checked out;
    otherwise the runner with the checked-out worker idle again, or
    deleted. *)
Lemma _execute_shape self j timeout w :
  (_execute self j timeout w).1 = self \/
  exists worker,
    JobRunner.workers self !! worker = Some Workers.IDLE /\
    select (JobRunner.workers self) = Some worker /\
    ((_execute self j timeout w).1
       = JobRunner.with_workers self
           (<[worker := Workers.IDLE]> (JobRunner.workers self)) \/
     (_execute self j timeout w).1
       = JobRunner.with_workers self (delete worker (JobRunner.workers self))).
Proof.
  destruct (serialize j) as [data | e] eqn:Hser.
  2: { left. unfold JobRunner._execute. by rewrite Hser. }
  destruct (Workers.checkout select (JobRunner.workers self))
    as [[worker ws] | e] eqn:Hco.
  - right. exists worker.
    pose proof (checkout_inv select _ _ _ Hco) as [Hidle _].
    split; [exact Hidle |]. split; [by eapply checkout_select |].
    destruct (dispatch data (timeout * 1000)%float w) as [payload | e] eqn:Hd.
    + left. by rewrite (_execute_returns select serialize unserialize str_list
                          self j timeout w data worker ws payload Hser Hco Hd).
    + destruct (is_Exception e) eqn:Hexc.
      * right. by rewrite (_execute_raises select serialize unserialize str_list
                             self j timeout w data worker ws e Hser Hco Hd Hexc).
      * left. by rewrite (_execute_interrupted select serialize unserialize str_list
                            self j timeout w data worker ws e Hser Hco Hd Hexc).
  - left. apply checkout_raises in Hco as Hno. subst e.
    unfold JobRunner._execute, JobRunner.handler. rewrite Hser, Hco. simpl.
    apply with_workers_id.
Qed.

(** X11: an attempt touches no worker but the one it checked out, and
    never lists a worker that was not listed before. *)
Theorem attempt_touches_one_worker self j timeout w :
  (forall k,
     JobRunner.workers (_execute self j timeout w).1 !! k
       = JobRunner.workers self !! k \/
     select (JobRunner.workers self) = Some k) /\
  (forall k,
     is_Some (JobRunner.workers (_execute self j timeout w).1 !! k) ->
     is_Some (JobRunner.workers self !! k)).
Proof.
  destruct (_execute_shape self j timeout w)
    as [-> | (worker & Hidle & Hsel & [-> | ->])]; simpl.
  - split; [by left | done].
  - split; intros k; destruct (decide (worker = k)) as [<- | Hne].
    + by right.
    + left. by rewrite lookup_insert_ne.
    + by rewrite Hidle.
    + by rewrite lookup_insert_ne.
  - split; intros k; destruct (decide (worker = k)) as [<- | Hne].
    + by right.
    + left. by rewrite lookup_delete_ne.
    + by rewrite Hidle.
    + by rewrite lookup_delete_ne.
Qed.

Lemma _execute_all_idle self j timeout w :
  Runs.all_idle (JobRunner.workers self) ->
  Runs.all_idle (JobRunner.workers (_execute self j timeout w).1).
Proof.
  intros Hall.
  destruct (_execute_shape self j timeout w)
    as [-> | (worker & Hidle & Hsel & [-> | ->])]; simpl; [done | |];
    intros k s; destruct (decide (worker = k)) as [<- | Hne].
  - rewrite lookup_insert_eq. congruence.
  - rewrite lookup_insert_ne by done. apply Hall.
  - by rewrite lookup_delete_eq.
  - rewrite lookup_delete_ne by done. apply Hall.
Qed.

(** X12: no worker is held across attempts or after a call: when every
    listed worker is idle before [JobRunner.execute], every listed
    worker is idle after it, however many rounds ran and however they
    ended. *)
Theorem execute_leaves_workers_idle self j timeout world :
  Runs.all_idle (JobRunner.workers self) ->
  Runs.all_idle (JobRunner.workers (execute self j timeout world).1.1).
Proof.
  unfold JobRunner.execute.
  generalize (Z.to_nat (JobRunner.retries self)) 0 (@None exc).
  intros n. revert self.
  induction n as [| n IH]; intros self i e Hall.
  - simpl. by destruct e.
  - rewrite execute_loop_S.
    pose proof (_execute_all_idle self j timeout (world i) Hall) as Hall'.
    destruct (_execute self j timeout (world i)) as [self' [payload | e']];
      simpl in *; [done |].
    destruct (JobRunner.retryable e'); [by apply IH | done].
Qed.

(** What [_execute] can raise: [ExecutionError], or what serializing
    the job raised, or an exception that is no [Exception]. *)
Lemma _execute_raise_classes self j timeout w e :
  (_execute self j timeout w).2 = Raise e ->
  (exists m, e = ExecutionError m) \/
  serialize j = Raise e \/
  is_Exception e = false.
Proof.
  unfold JobRunner._execute, JobRunner.handler.
  destruct (serialize j) as [data | e0]; [| intros [= <-]; eauto].
  destruct (Workers.checkout _ _) as [[worker ws] | e0].
  - destruct (dispatch _ _ _) as [payload | e0]; [done |].
    destruct (is_Exception e0) eqn:Hexc; simpl; intros [= <-]; eauto.
  - destruct (is_Exception e0) eqn:Hexc; simpl; intros [= <-]; eauto.
Qed.

Lemma execute_loop_raise_classes n : forall i self j timeout world e0 e,
  (forall e', e0 = Some e' ->
     (exists m, e' = ExecutionError m) \/ serialize j = Raise e' \/
     is_Exception e' = false) ->
  (execute_loop n i self j timeout world e0).1.2 = Raise e ->
  (exists m, e = ExecutionError m) \/ serialize j = Raise e \/
  is_Exception e = false.
Proof.
  induction n as [| n IH]; intros i self j timeout world e0 e He0.
  - simpl. destruct e0 as [e' |]; simpl; [| done].
    intros [= <-]. by apply He0.
  - rewrite execute_loop_S.
    pose proof (_execute_raise_classes self j timeout (world i)) as Hcls.
    destruct (_execute self j timeout (world i)) as [self' [payload | e']];
      simpl in *; [done |].
    specialize (Hcls e' eq_refl).
    destruct (JobRunner.retryable e').
    + apply IH. by intros e'' [= <-].
    + simpl. by intros [= <-].
Qed.

(** X13: what [JobRunner.execute] raises is an [ExecutionError], or
    the exception that serializing the job raised, or an exception
    that is no [Exception] (an interrupt): a timed-out poll, a bad
    opcode, a ZeroMQ error or a failed checkout never leaves under a
    class of its own. *)
Theorem execute_raises_only_execution_error self j timeout world e :
  (execute self j timeout world).1.2 = Raise e ->
  (exists m, e = ExecutionError m) \/
  serialize j = Raise e \/
  is_Exception e = false.
Proof. apply execute_loop_raise_classes. done. Qed.

(** X14: [JobRunner.execute] stops at the first round that returns:
    when round [k] is reached, the rounds before it having raised
    exceptions the handler catches, and returns a payload, that
    payload is the result and exactly [k + 1] attempts were made. *)
Theorem execute_returns_first_success self j timeout world k payload :
  reaches k self j timeout world ->
  round k self j timeout world = Return payload ->
  execute self j timeout world
  = (before_round (S k) self j timeout world, Return (Some payload), S k).
Proof.
  intros Hreach Hok.
  destruct (execute_reaches select serialize unserialize str_list
              self j timeout world k Hreach) as (n & e0 & _ & ->).
  by rewrite execute_loop_S, _execute_round, Hok.
Qed.

(** X15: a ZeroMQ error on [send], [poll] or [recv] gets the
    checked-out worker deleted and leaves [_execute] as an
    [ExecutionError] whose text starts with the ZeroMQ error's text,
    followed by the traceback lines. *)
Theorem attempt_transport_error self j timeout w data worker ws err :
  serialize j = Return data ->
  Workers.checkout select (JobRunner.workers self) = Return (worker, ws) ->
  JobRunner.send w data = Raise (ZMQError err) \/
  (JobRunner.send w data = Return tt /\
   JobRunner.poll w (timeout * 1000)%float = Raise (ZMQError err)) \/
  (JobRunner.send w data = Return tt /\
   JobRunner.poll w (timeout * 1000)%float = Return true /\
   JobRunner.recv w = Raise (ZMQError err)) ->
  (_execute self j timeout w).2
    = Raise (ExecutionError (String.concat JobRunner.newline (err :: JobRunner.tb w))) /\
  JobRunner.workers (_execute self j timeout w).1 !! worker = None.
Proof.
  intros Hser Hco Herr.
  assert (Hd : dispatch data (timeout * 1000)%float w = Raise (ExecutionError err)).
  { unfold JobRunner.dispatch.
    destruct Herr as [-> | [[-> ->] | (-> & -> & ->)]]; done. }
  rewrite (_execute_raises select serialize unserialize str_list
             self j timeout w data worker ws _ Hser Hco Hd eq_refl); simpl.
  split; [done | apply lookup_delete_eq].
Qed.

Lemma last_cons_self {A} (a : A) l : List.last (a :: l) a = List.last l a.
Proof. by destruct l. Qed.

(** X16: a JOBRES reply of any length is a success, and its last part
    is the result: for a reply that is the opcode alone, the result is
    the opcode itself. The worker is idle again. *)
Theorem attempt_jobres_any_length self j timeout w worker rest :
  answers self j timeout w worker ("JOBRES" :: rest) ->
  (_execute self j timeout w).2 = Return (List.last rest "JOBRES") /\
  JobRunner.workers (_execute self j timeout w).1 !! worker = Some Workers.IDLE.
Proof.
  intros Hans.
  rewrite (_execute_jobres select serialize unserialize str_list
             self j timeout w worker rest Hans); cbn [fst snd JobRunner.workers
                                                     JobRunner.with_workers].
  rewrite last_cons_self. split; [done | apply lookup_insert_eq].
Qed.

Lemma execute_loop_no_worker self j timeout world data n : forall i e0,
  serialize j = Return data ->
  select (JobRunner.workers self) = None ->
  (execute_loop (S n) i self j timeout world e0).1.1 = self /\
  (execute_loop (S n) i self j timeout world e0).2 = i + S n /\
  exists m, (execute_loop (S n) i self j timeout world e0).1.2
            = Raise (ExecutionError m).
Proof.
  induction n as [| n IH]; intros i e0 Hser Hsel;
    rewrite execute_loop_S,
      (_execute_no_worker select serialize unserialize str_list _ _ _ _ _ Hser Hsel);
    simpl JobRunner.retryable; cbv iota.
  - simpl. repeat split; [lia | eauto].
  - destruct (IH (S i) (Some (ExecutionError
                (JobRunner.diagnostic NoWorker (world i)))) Hser Hsel)
      as (Hself & Hcount & m & Hraise).
    repeat split; [done | lia | eauto].
Qed.

(** X17: when the job serializes and the registry hands out no
    worker, nobody is deleted: [JobRunner.execute] makes all its
    attempts, each failing at once, raises [ExecutionError] and leaves
    the runner as it was. *)
Theorem execute_without_worker self j timeout world data :
  serialize j = Return data ->
  (0 < JobRunner.retries self)%Z ->
  select (JobRunner.workers self) = None ->
  (execute self j timeout world).1.1 = self /\
  (execute self j timeout world).2 = Z.to_nat (JobRunner.retries self) /\
  exists m, (execute self j timeout world).1.2 = Raise (ExecutionError m).
Proof.
  intros Hser Hpos Hsel. unfold JobRunner.execute.
  destruct (Z.to_nat (JobRunner.retries self)) as [| n] eqn:Hn; [lia |].
  by apply (execute_loop_no_worker self j timeout world data n 0 None).
Qed.

(** X19: a job that cannot be serialized is not retried when the
    exception is none of the two the handler catches: [execute]
    raises it after a single call of [_execute], unwrapped, and the
    registry is not touched. *)
Theorem execute_unserializable_job self j timeout world e :
  (0 < JobRunner.retries self)%Z ->
  serialize j = Raise e ->
  JobRunner.retryable e = false ->
  execute self j timeout world = (self, Raise e, 1).
Proof.
  intros Hpos Hser Hfatal. unfold JobRunner.execute.
  destruct (Z.to_nat (JobRunner.retries self)) as [| n] eqn:Hn; [lia |].
  rewrite execute_loop_S. unfold JobRunner._execute. by rewrite Hser, Hfatal.
Qed.

End JobRunnerMore.

Section LifecycleFacts.

Lemma lifecycle_step_in_step self op :
  Runs.in_step self -> Runs.in_step (Runs.lifecycle_step self op).
Proof.
  unfold Runs.in_step.
  destruct self as [[] endpoint ws [ep running starts stops] n], op; simpl;
    intros [? ?]; split; (done || lia).
Qed.

Lemma lifecycle_step_data self op :
  JobRunner.workers (Runs.lifecycle_step self op) = JobRunner.workers self /\
  JobRunner.retries (Runs.lifecycle_step self op) = JobRunner.retries self /\
  JobRunner.endpoint (Runs.lifecycle_step self op) = JobRunner.endpoint self.
Proof.
  destruct op; simpl; unfold JobRunner.start, JobRunner.stop;
    by destruct (JobRunner.started self).
Qed.

(** X18: whatever sequence of [start] and [stop] calls a new runner
    receives, its [started] flag says whether the registration loop
    runs, the loop is never started twice without a stop in between
    nor stopped without having been started, and the registry, the
    retries and the endpoint are as they were. *)
Theorem lifecycle_keeps_loop_in_step endpoint retries ops :
  let self := Runs.lifecycle_run (JobRunner.__init__ endpoint retries) ops in
  WorkerRegistration.running (JobRunner.registration self) = JobRunner.started self /\
  WorkerRegistration.starts (JobRunner.registration self)
  = WorkerRegistration.stops (JobRunner.registration self)
    + (if JobRunner.started self then 1 else 0) /\
  JobRunner.workers self = ∅ /\
  JobRunner.retries self = retries /\
  JobRunner.endpoint self = endpoint.
Proof.
  unfold Runs.lifecycle_run.
  set (new := JobRunner.__init__ endpoint retries).
  assert (Hinv : Runs.in_step new /\ JobRunner.workers new = ∅ /\
                 JobRunner.retries new = retries /\
                 JobRunner.endpoint new = endpoint) by by repeat split.
  clearbody new. revert new Hinv.
  induction ops as [| op ops IH]; intros new (Hstep & Hws & Hn & He); simpl.
  - destruct Hstep. by repeat split.
  - apply IH.
    destruct (lifecycle_step_data new op) as (-> & -> & ->).
    split; [by apply lifecycle_step_in_step | done].
Qed.

End LifecycleFacts.

Section JobRunnerMoreRuns.

Local Abbreviation _execute :=
  (JobRunner._execute Samples.select Samples.serialize Samples.unserialize
     Samples.str_list).
Local Abbreviation execute :=
  (JobRunner.execute Samples.select Samples.serialize Samples.unserialize
     Samples.str_list).
Local Abbreviation round :=
  (JobRunner.round Samples.select Samples.serialize Samples.unserialize
     Samples.str_list).
Local Abbreviation reaches :=
  (JobRunner.reaches Samples.select Samples.serialize Samples.unserialize
     Samples.str_list).

Lemma all_idle_empty : Runs.all_idle ∅.
Proof. intros k s. by rewrite lookup_empty. Qed.

Lemma all_idle_add identity ws :
  Runs.all_idle ws -> Runs.all_idle (Workers.add identity ws).
Proof.
  intros Hall k s. unfold Workers.add.
  destruct (ws !! identity); [apply Hall |].
  destruct (decide (identity = k)) as [<- | Hne].
  - rewrite lookup_insert_eq. congruence.
  - rewrite lookup_insert_ne by done. apply Hall.
Qed.

Lemma runner3_all_idle : Runs.all_idle (JobRunner.workers Samples.runner3).
Proof. repeat apply all_idle_add. apply all_idle_empty. Qed.

(** Three idle workers, a first round that times out, a second that
    is answered: the two that are left are idle. *)
Lemma execute_leaves_workers_idle_witness :
  Runs.all_idle (JobRunner.workers Samples.runner3) /\
  Runs.all_idle
    (JobRunner.workers (execute Samples.runner3 Samples.square 1 Samples.healed).1.1).
Proof.
  split; [exact runner3_all_idle |].
  exact (execute_leaves_workers_idle
           Samples.select Samples.serialize Samples.unserialize Samples.str_list
           Samples.runner3 Samples.square 1 Samples.healed runner3_all_idle).
Defined.

(** Three rounds answered PONG: what comes out is an
    [ExecutionError]. *)
Lemma execute_raises_only_execution_error_witness :
  exists e,
    (execute Samples.runner3 Samples.square 1 Samples.pong).1.2 = Raise e /\
    ((exists m, e = ExecutionError m) \/
     Samples.serialize Samples.square = Raise e \/
     is_Exception e = false).
Proof.
  eexists. split; [vm_compute; reflexivity |].
  refine (execute_raises_only_execution_error
            Samples.select Samples.serialize Samples.unserialize Samples.str_list
            Samples.runner3 Samples.square 1 Samples.pong _ _).
  vm_compute; reflexivity.
Defined.

Lemma healed_reaches_1 :
  reaches 1 Samples.runner3 Samples.square 1 Samples.healed.
Proof.
  split; [vm_compute; lia |].
  intros i Hi. destruct i as [| i]; [| lia].
  eexists. split; [vm_compute; reflexivity | reflexivity].
Qed.

(** Round 0 times out, round 1 is answered with 49: two attempts. *)
Lemma execute_returns_first_success_witness :
  reaches 1 Samples.runner3 Samples.square 1 Samples.healed /\
  round 1 Samples.runner3 Samples.square 1 Samples.healed = Return "49" /\
  (execute Samples.runner3 Samples.square 1 Samples.healed).1.2 = Return (Some "49") /\
  (execute Samples.runner3 Samples.square 1 Samples.healed).2 = 2.
Proof.
  assert (Hok : round 1 Samples.runner3 Samples.square 1 Samples.healed = Return "49")
    by (vm_compute; reflexivity).
  pose proof (execute_returns_first_success
                Samples.select Samples.serialize Samples.unserialize Samples.str_list
                Samples.runner3 Samples.square 1 Samples.healed 1 "49"
                healed_reaches_1 Hok) as Hex.
  split; [exact healed_reaches_1 | split; [exact Hok |]].
  split; [exact (f_equal (fun r => r.1.2) Hex) | exact (f_equal snd Hex)].
Defined.

Lemma runner3_checkout :
  Workers.checkout Samples.select (JobRunner.workers Samples.runner3)
  = Return ("w3", <["w3" := Workers.BUSY]> (JobRunner.workers Samples.runner3)).
Proof. vm_compute; reflexivity. Qed.

(** Worker [w3] is handed out and the socket refuses the job. *)
Lemma attempt_transport_error_witness :
  (_execute Samples.runner3 Samples.square 1 Samples.unsendable).2
    = Raise (ExecutionError
               (String.concat JobRunner.newline
                  ("Resource temporarily unavailable"
                   :: JobRunner.tb Samples.unsendable))) /\
  JobRunner.workers (_execute Samples.runner3 Samples.square 1 Samples.unsendable).1
    !! "w3" = None.
Proof.
  exact (attempt_transport_error
           Samples.select Samples.serialize Samples.unserialize Samples.str_list
           Samples.runner3 Samples.square 1 Samples.unsendable "JOB:square:7" "w3" _
           "Resource temporarily unavailable" eq_refl runner3_checkout
           (or_introl eq_refl)).
Defined.

(** Worker [w3] answers with the opcode and nothing else. *)
Lemma attempt_jobres_any_length_witness :
  JobRunner.answers Samples.select Samples.serialize Samples.unserialize
    Samples.runner3 Samples.square 1 (Samples.says "JOBRES") "w3" ["JOBRES"] /\
  (_execute Samples.runner3 Samples.square 1 (Samples.says "JOBRES")).2
    = Return "JOBRES" /\
  JobRunner.workers (_execute Samples.runner3 Samples.square 1 (Samples.says "JOBRES")).1
    !! "w3" = Some Workers.IDLE.
Proof.
  assert (Hans : JobRunner.answers Samples.select Samples.serialize
                   Samples.unserialize Samples.runner3 Samples.square 1
                   (Samples.says "JOBRES") "w3" ["JOBRES"])
    by apply (runner3_answers "JOBRES").
  split; [exact Hans |].
  exact (attempt_jobres_any_length
           Samples.select Samples.serialize Samples.unserialize Samples.str_list
           Samples.runner3 Samples.square 1 _ "w3" [] Hans).
Defined.

(** The default runner before any worker has registered. *)
Lemma execute_without_worker_witness :
  Samples.serialize Samples.square = Return "JOB:square:7" /\
  (0 < JobRunner.retries JobRunner.default)%Z /\
  Samples.select (JobRunner.workers JobRunner.default) = None /\
  (execute JobRunner.default Samples.square 1 Samples.pong).1.1 = JobRunner.default /\
  (execute JobRunner.default Samples.square 1 Samples.pong).2 = 3.
Proof.
  assert (Hser : Samples.serialize Samples.square = Return "JOB:square:7")
    by reflexivity.
  assert (Hpos : (0 < JobRunner.retries JobRunner.default)%Z) by reflexivity.
  assert (Hsel : Samples.select (JobRunner.workers JobRunner.default) = None)
    by reflexivity.
  pose proof (execute_without_worker
                Samples.select Samples.serialize Samples.unserialize Samples.str_list
                JobRunner.default Samples.square 1 Samples.pong _ Hser Hpos Hsel)
    as (Hself & Hcount & _).
  exact (conj Hser (conj Hpos (conj Hsel (conj Hself Hcount)))).
Defined.

(** A job without a target on a runner with three workers: one call
    of [_execute], [ValueError], every worker still listed. *)
Lemma execute_unserializable_job_witness :
  (0 < JobRunner.retries Samples.runner3)%Z /\
  Samples.serialize Samples.nameless = Raise (ValueError "no target") /\
  execute Samples.runner3 Samples.nameless 1 Samples.pong
  = (Samples.runner3, Raise (ValueError "no target"), 1).
Proof.
  assert (Hpos : (0 < JobRunner.retries Samples.runner3)%Z) by reflexivity.
  assert (Hser : Samples.serialize Samples.nameless = Raise (ValueError "no target"))
    by reflexivity.
  split; [exact Hpos | split; [exact Hser |]].
  exact (execute_unserializable_job
           Samples.select Samples.serialize Samples.unserialize Samples.str_list
           Samples.runner3 Samples.nameless 1 Samples.pong _ Hpos Hser eq_refl).
Defined.

End JobRunnerMoreRuns.
